(** * ingest_archive_video: video tags for Anthology papers

    A shallow embedding of [bin/ingest_archive_video.py] and the
    properties of its file-name scanner, tag insertion and driver loop.

    Python strings are [string]s, lists are [list]s, the set of collection
    ids is a [gset], the files of the machine are a [gmap] from path to
    content.  Exceptions are the [Raise] outcome of a small state monad in
    which the files written so far survive a failure. *)

From Stdlib Require Import Ascii String List Sorting.Sorted Permutation.
From stdpp Require Import base decidable option list sorting strings gmap.

Local Open Scope list_scope.

(** ** Python strings *)

Module Py.

(** [s[n:]] *)
Fixpoint slice_from (n : nat) (s : string) : string :=
  match n, s with
  | O, _ => s
  | S _, EmptyString => EmptyString
  | S n', String _ s' => slice_from n' s'
  end.

(** [s.split(sep)] for a one-character separator: never an empty list. *)
Fixpoint split (sep : ascii) (s : string) : list string :=
  match s with
  | EmptyString => [EmptyString]
  | String c s' =>
      if decide (c = sep) then EmptyString :: split sep s'
      else match split sep s' with
           | w :: ws => String c w :: ws
           | [] => [String c EmptyString]
           end
  end.

(** [l[0]] of a list of strings that is known not to be empty. *)
Definition first (l : list string) : string := hd EmptyString l.

(** [l[0:-1]] *)
Definition but_last (l : list string) : list string := removelast l.

(** [s.startswith(p)] *)
Fixpoint startswith (p s : string) : bool :=
  match p, s with
  | EmptyString, _ => true
  | String a p', String b s' => bool_decide (a = b) && startswith p' s'
  | String _ _, EmptyString => false
  end.

(** [p in s]: [p] occurs in [s] as a substring. *)
Fixpoint contains (p s : string) : bool :=
  startswith p s ||
  match s with
  | EmptyString => false
  | String _ s' => contains p s'
  end.

(** [s.endswith(p)] *)
Fixpoint endswith (p s : string) : bool :=
  bool_decide (s = p) ||
  match s with
  | EmptyString => false
  | String _ s' => endswith p s'
  end.

(** [c in s] for a character. *)
Fixpoint has_char (c : ascii) (s : string) : bool :=
  match s with
  | EmptyString => false
  | String a s' => bool_decide (a = c) || has_char c s'
  end.

(** [s.rstrip(sep)] *)
Fixpoint rstrip (sep : ascii) (s : string) : string :=
  match s with
  | EmptyString => EmptyString
  | String c s' =>
      match rstrip sep s' with
      | EmptyString => if decide (c = sep) then EmptyString else String c EmptyString
      | r => String c r
      end
  end.

(** The double quote character, by its code. *)
Definition double_quote : ascii := ascii_of_nat 34.

(** [s.isdigit()] on ASCII text. *)
Definition is_digit (c : ascii) : bool :=
  let n := nat_of_ascii c in (48 <=? n)%nat && (n <=? 57)%nat.

Fixpoint all_digits (s : string) : bool :=
  match s with
  | EmptyString => true
  | String c s' => is_digit c && all_digits s'
  end.

Definition isdigit (s : string) : bool :=
  negb (bool_decide (s = EmptyString)) && all_digits s.

(** Comparison of lists of strings, as [<=] on Python lists: the first
    differing element decides, a proper prefix is smaller. *)
Fixpoint list_leb (a b : list string) : bool :=
  match a, b with
  | [], _ => true
  | _ :: _, [] => false
  | x :: a', y :: b' =>
      match String.compare x y with
      | Lt => true
      | Gt => false
      | Eq => list_leb a' b'
      end
  end.

Definition list_le (a b : list string) : Prop := list_leb a b = true.

#[global] Instance list_le_dec : RelDecision list_le.
Proof. intros a b. unfold list_le. apply _. Defined.

(** [l.sort()] *)
Definition sort (l : list (list string)) : list (list string) :=
  merge_sort list_le l.

End Py.

(** ** [os.path] on POSIX *)

Module OsPath.

Definition sep : ascii := "/"%char.
Definition extsep : ascii := "."%char.

(** [(p[:i], p[i:])] for [i = p.rfind(c) + 1]. *)
Fixpoint cut_after_last (c : ascii) (p : string) : string * string :=
  match p with
  | EmptyString => (EmptyString, EmptyString)
  | String a p' =>
      match cut_after_last c p' with
      | (EmptyString, t) =>
          if decide (a = c) then (String a EmptyString, t)
          else (EmptyString, String a t)
      | (h, t) => (String a h, t)
      end
  end.

(** [os.path.split]: the head loses its trailing separators unless it
    consists of separators only. *)
Definition split (p : string) : string * string :=
  let '(head, tail) := cut_after_last sep p in
  match Py.rstrip sep head with
  | EmptyString => (head, tail)
  | stripped => (stripped, tail)
  end.

(** [os.path.join(a, b)] *)
Definition join (a b : string) : string :=
  if Py.startswith "/" b then b
  else if bool_decide (a = EmptyString) || Py.endswith "/" a then a +:+ b
  else a +:+ "/" +:+ b.

(** The loop of [genericpath._splitext]: [name] is the text between the
    last separator and the last dot; a character other than a dot in it
    makes the last dot an extension separator. *)
Fixpoint only_dots (name : string) : bool :=
  match name with
  | EmptyString => true
  | String a name' => bool_decide (a = extsep) && only_dots name'
  end.

(** [(p[:i], p[i:])] for [i = p.rfind(c)], when [c] occurs in [p]. *)
Fixpoint cut_at_last (c : ascii) (p : string) : option (string * string) :=
  match p with
  | EmptyString => None
  | String a p' =>
      match cut_at_last c p' with
      | Some (h, t) => Some (String a h, t)
      | None => if decide (a = c) then Some (EmptyString, p) else None
      end
  end.

(** [os.path.splitext] *)
Definition splitext (p : string) : string * string :=
  let '(dir, base) := cut_after_last sep p in
  match cut_at_last extsep base with
  | Some (stem, ext) =>
      if only_dots stem then (p, EmptyString) else (dir +:+ stem, ext)
  | None => (p, EmptyString)
  end.

End OsPath.

(** ** The XML tree ([lxml.etree]) *)

(** An element with its tag, attributes in document order, text, children
    and tail. *)
#[warnings="-register-all"]
Inductive element : Type :=
  Element (tag : string) (attrib : list (string * string)) (text : string)
          (children : list element) (tail : string).

Module Etree.

Definition tag (e : element) : string := let 'Element t _ _ _ _ := e in t.
Definition attrib (e : element) : list (string * string) :=
  let 'Element _ a _ _ _ := e in a.
Definition text (e : element) : string := let 'Element _ _ x _ _ := e in x.
Definition children (e : element) : list element :=
  let 'Element _ _ _ c _ := e in c.
Definition tail (e : element) : string := let 'Element _ _ _ _ x := e in x.

(** [e.get(key)] *)
Fixpoint lookup_attrib (key : string) (a : list (string * string)) : option string :=
  match a with
  | [] => None
  | (k, v) :: a' => if decide (k = key) then Some v else lookup_attrib key a'
  end.

Definition get (e : element) (key : string) : option string :=
  lookup_attrib key (attrib e).

(** A node of the tree two levels below the root, named by the index of
    its parent among the root's children and its own index among its
    siblings: what a Python reference to that node stands for. *)
Definition node_ref : Type := nat * nat.

Definition node_at (root : element) (r : node_ref) : option element :=
  children root !! r.1 ≫= λ v, children v !! r.2.

(** The step [name[@id="ident"]] of an ElementPath. *)
Definition step_matches (name ident : string) (e : element) : bool :=
  bool_decide (tag e = name) && bool_decide (get e "id" = Some ident).

(** Index of the first element of [l] that satisfies [p]. *)
Fixpoint index_where {A} (p : A → bool) (l : list A) : option nat :=
  match l with
  | [] => None
  | x :: l' => if p x then Some O else S <$> index_where p l'
  end.

(** The matches of [./volume[@id="V"]/paper[@id="P"]] come volume by
    volume, in document order; [find] keeps the first. *)
Fixpoint find_in (vs : list element) (i : nat) (volume_id paper_id : string)
  : option node_ref :=
  match vs with
  | [] => None
  | v :: vs' =>
      if step_matches "volume" volume_id v then
        match index_where (step_matches "paper" paper_id) (children v) with
        | Some j => Some (i, j)
        | None => find_in vs' (S i) volume_id paper_id
        end
      else find_in vs' (S i) volume_id paper_id
  end.

(** [tree.find(f'./volume[@id="{volume_id}"]/paper[@id="{paper_id}"]')] *)
Definition find (root : element) (volume_id paper_id : string) : option node_ref :=
  find_in (children root) O volume_id paper_id.

Definition append_child (new : element) (e : element) : element :=
  let 'Element t a x c y := e in Element t a x (c ++ [new]) y.

Definition alter_child (f : element → element) (i : nat) (e : element) : element :=
  let 'Element t a x c y := e in Element t a x (alter f i c) y.

(** [etree.SubElement(parent, tag)] with its attributes set, [parent]
    being the node [r] of the tree [root]: the tree after the mutation. *)
Definition SubElement (root : element) (r : node_ref) (tg : string)
    (att : list (string * string)) : element :=
  alter_child (alter_child (append_child (Element tg att "" [] "")) r.2) r.1 root.

(** Number of elements of a tree. *)
Fixpoint size (e : element) : nat :=
  let 'Element _ _ _ c _ := e in S (list_sum (map size c)).

(** The node [r] of [root] is the paper [pap] with id [paper_id], in the
    volume [vol] with id [volume_id]. *)
Definition paper_at (root : element) (volume_id paper_id : string)
    (r : node_ref) (vol pap : element) : Prop :=
  children root !! r.1 = Some vol ∧
  step_matches "volume" volume_id vol = true ∧
  children vol !! r.2 = Some pap ∧
  step_matches "paper" paper_id pap = true.

(** The document has a paper with id [paper_id] under a volume with id
    [volume_id]. *)
Definition has_paper (root : element) (volume_id paper_id : string) : Prop :=
  ∃ r vol pap, paper_at root volume_id paper_id r vol pap.

(** Document order on the nodes two levels below the root. *)
Definition ref_le (r r' : node_ref) : Prop :=
  r.1 < r'.1 ∨ (r.1 = r'.1 ∧ r.2 ≤ r'.2).

(** [doc'] is [doc] with the element [new] appended to the children of
    its node [r]: the node keeps its tag, attributes, text, tail and
    earlier children, every other node two levels down is as it was, and
    the tree has grown by the size of [new]. *)
Definition appended (doc : element) (r : node_ref) (new : element)
    (doc' : element) : Prop :=
  (∃ pap, node_at doc r = Some pap ∧
          node_at doc' r
          = Some (Element (tag pap) (attrib pap) (text pap)
                          (children pap ++ [new]) (tail pap))) ∧
  (∀ r', r' ≠ r → node_at doc' r' = node_at doc r') ∧
  size doc' = size doc + size new.

(** The element [<video href="..."/>]. *)
Definition video (href : string) : element :=
  Element "video" [("href", href)] "" [] "".

End Etree.

(** ** Exceptions, files and the run monad *)

Inductive exn : Type :=
  | LookupFailure
  | ParseFailure (path : string).

Inductive result (A : Type) : Type :=
  | Ok (a : A)
  | Raise (e : exn).
Arguments Ok {A} a.
Arguments Raise {A} e.

Inductive content : Type :=
  | Xml (root : element)
  | Other (raw : string).

(** The files of the machine by path, and the history of the writes of
    the run, oldest first. *)
Record machine : Type := Machine {
  files : gmap string content;
  written : list (string * element)
}.

Definition run (A : Type) : Type := machine → machine * result A.

Definition ret {A} (a : A) : run A := λ m, (m, Ok a).

Definition bind {A B} (c : run A) (k : A → run B) : run B :=
  λ m, match c m with
       | (m', Ok a) => k a m'
       | (m', Raise e) => (m', Raise e)
       end.

Definition lift {A} (r : result A) : run A := λ m, (m, r).

Notation "x <- c ;; k" := (bind c (λ x, k))
  (at level 100, c at next level, right associativity).

(** [for x in l: acc = body(acc, x)], stopping at the first exception. *)
Fixpoint for_fold {A B} (body : B → A → run B) (l : list A) (acc : B) : run B :=
  match l with
  | [] => ret acc
  | x :: l' => acc' <- body acc x ;; for_fold body l' acc'
  end.

Fixpoint for_each {A} (body : A → run unit) (l : list A) : run unit :=
  match l with
  | [] => ret tt
  | x :: l' => _ <- body x ;; for_each body l'
  end.

(** ** A small machine to run the program on *)

Module Sample.

Fixpoint lstrip_zeros (s : string) : string :=
  match s with
  | String "0" s' => lstrip_zeros s'
  | _ => s
  end.

Fixpoint cut_at_hyphen (s : string) : string * string :=
  match s with
  | EmptyString => (EmptyString, EmptyString)
  | String "-" s' => (EmptyString, s')
  | String c s' => let '(h, t) := cut_at_hyphen s' in (String c h, t)
  end.

(** The convention for identifiers such as [N13-1001]: the collection
    before the hyphen, the volume in the digit after it, the paper in the
    remaining digits without their leading zeros. *)
Definition deconstruct (anth_id : string) : string * string * string :=
  let '(collection_id, rest) := cut_at_hyphen anth_id in
  match rest with
  | String v p => (collection_id, String v EmptyString, lstrip_zeros p)
  | EmptyString => (collection_id, EmptyString, EmptyString)
  end.

(** An indentation that puts every element on a line of its own. *)
Fixpoint indent (e : element) : element :=
  let 'Element t a x c _ := e in
  Element t a x (map indent c) (String "010" EmptyString).

Definition DATA_DIR : string := "data/xml".

Definition paper (ident title : string) : element :=
  Element "paper" [("id", ident)] "" [Element "title" [] title [] ""] "".

Definition N13 : element :=
  Element "collection" [("id", "N13")] ""
    [Element "volume" [("id", "1")] "" [paper "1" "Parsing"; paper "2" "Tagging"] "";
     Element "volume" [("id", "4")] "" [paper "1" "A tutorial"] ""] "".

Definition Q13 : element :=
  Element "collection" [("id", "Q13")] ""
    [Element "volume" [("id", "1")] "" [paper "2" "Alignment"] ""] "".

Definition R13 : element :=
  Element "collection" [("id", "R13")] "" [] "".

Definition listdir (d : string) : list string :=
  if decide (d = "videos") then
    ["N13-1001.mp4"; "N13-4001.2.mp4"; "Q13-1002.mp4"; "N13-4001.1.mp4"; "notes.txt"]
  else if decide (d = "data/xml") then ["N13.xml"; "Q13.xml"; "R13.xml"]
  else if decide (d = "v") then ["a.mp4"]
  else [].

Definition glob_dirs (d : string) : list string :=
  if decide (d = "vid*") then ["videos"] else [].

Definition disk : gmap string content :=
  list_to_map
    [("data/xml/N13.xml", Xml N13); ("data/xml/Q13.xml", Xml Q13);
     ("data/xml/R13.xml", Xml R13); ("videos/notes.txt", Other "to do")].

Definition boot : machine := Machine disk [].

(** The same machine when [Q13.xml] has lost its papers. *)
Definition Q13_empty : element :=
  Element "collection" [("id", "Q13")] ""
    [Element "volume" [("id", "1")] "" [] ""] "".

Definition stale : machine :=
  Machine (<["data/xml/Q13.xml" := Xml Q13_empty]> disk) [].

(** The same machine when [Q13.xml] is cut short. *)
Definition broken : machine :=
  Machine (<["data/xml/Q13.xml" := Other "<collection id="]> disk) [].

End Sample.

(** ** The program *)

Section Ingest.

(** [anthology.utils.deconstruct_anthology_id], the decomposition of an
    Anthology identifier into collection, volume and paper codes: a
    convention outside this script. *)
Variable deconstruct_anthology_id : string → string * string * string.

(** [anthology.utils.indent], which re-indents a tree in place. *)
Variable indent : element → element.

(** The constant [DATA_DIR]. *)
Variable DATA_DIR : string.

(** What the script sees of the directories of the machine: the entries
    of a directory, and the directories that a directory name with
    wildcard characters stands for.  [glob] takes a directory that it
    cannot read as one without entries, and so does [listdir] here;
    [os.listdir(DATA_DIR)] raises for such a directory, so that what is
    said of the run is said for a [DATA_DIR] that can be listed. *)
Variable listdir : string → list string.
Variable glob_dirs : string → list string.

(** The entries of a directory are file names: no separator in them. *)
Definition entries_are_names : Prop :=
  ∀ d name, In name (listdir d) → Py.has_char "/" name = false.

(** *** [glob.glob(f"{video_dir}/*.mp4")] *)

Definition has_magic (s : string) : bool :=
  Py.has_char "*" s || Py.has_char "?" s || Py.has_char "[" s.

Definition ishidden (name : string) : bool := Py.startswith "." name.

(** [fnmatch] against [*.mp4], hidden entries left out. *)
Definition matches_mp4 (name : string) : bool :=
  negb (ishidden name) && Py.endswith ".mp4" name.

Definition glob_mp4 (video_dir : string) : list string :=
  let pathname := video_dir +:+ "/*.mp4" in
  let dirname := (OsPath.split pathname).1 in
  let dirs := if has_magic dirname then glob_dirs dirname else [dirname] in
  flat_map (λ d, map (OsPath.join d) (List.filter matches_mp4 (listdir d))) dirs.

(** *** The scanner *)

(** [file[len(video_dir):].split('.')] *)
Definition segments (video_dir file : string) : list string :=
  Py.split "." (Py.slice_from (String.length video_dir) file).

Definition collection_of (anth_id : string) : string :=
  let '(collection_id, _, _) := deconstruct_anthology_id anth_id in collection_id.

Definition get_collection_ids (video_dir : string) : list string :=
  elements
    (list_to_set
       (map (λ file, collection_of (Py.first (segments video_dir file)))
            (glob_mp4 video_dir)) : gset string).

Definition get_anth_ids (video_dir : string) : list string * list (list string) :=
  let anth_ids_single :=
    map (λ file, Py.first (segments video_dir file))
        (List.filter (λ file, Nat.eqb (length (segments video_dir file)) 2)
                     (glob_mp4 video_dir)) in
  let anth_ids_multiple :=
    map (λ file, Py.but_last (segments video_dir file))
        (List.filter (λ file, Nat.ltb 2 (length (segments video_dir file)))
                     (glob_mp4 video_dir)) in
  (anth_ids_single, Py.sort anth_ids_multiple).

(** *** Tag insertion *)

(** Modelled from the spec: [anthology.utils.make_simple_element] is not
    among the sources.  It builds a simple tagged element and attaches it
    to a parent, as the parent's last child; a lookup that found no node
    gives no parent to attach to and is fatal.  The result is the tree in
    which [parent] lives, after the mutation. *)
Definition make_simple_element (tg : string) (att : list (string * string))
    (parent : option Etree.node_ref) (tree : element) : result element :=
  match parent with
  | Some r => Ok (Etree.SubElement tree r tg att)
  | None => Raise LookupFailure
  end.

(** The path text [./volume[@id="{volume_id}"]/paper[@id="{paper_id}"]]
    is the query [Etree.find] for codes that hold no double quote; a
    double quote in a code ends the quoted value early and the text is
    another path, or none.  What is proved of an insertion that succeeds
    is proved for codes without a double quote. *)
Definition add_video_tag_single (anth_id : string) (xml_parse : element)
  : result element :=
  let '(collection_id, volume_id, paper_id) := deconstruct_anthology_id anth_id in
  let paper := Etree.find xml_parse volume_id paper_id in
  let video_url := anth_id +:+ ".mp4" in
  make_simple_element "video" [("href", video_url)] paper xml_parse.

Definition add_video_tag_multiple (anth_id vid_num : string) (xml_parse : element)
  : result element :=
  let '(collection_id, volume_id, paper_id) := deconstruct_anthology_id anth_id in
  let paper := Etree.find xml_parse volume_id paper_id in
  let video_url := (anth_id +:+ ("." +:+ vid_num)) +:+ ".mp4" in
  make_simple_element "video" [("href", video_url)] paper xml_parse.

(** *** Writing and the driver *)

(** [et.parse(path)] *)
Definition et_parse (path : string) : run element :=
  λ m, match files m !! path with
       | Some (Xml root) => (m, Ok root)
       | _ => (m, Raise (ParseFailure path))
       end.

(** The tree is indented in place and written out: the result is the
    tree that the caller holds afterwards. *)
Definition update_xml (data_dir collection_id extention : string) (xml_tree : element)
  : run element :=
  λ m, let path := OsPath.join data_dir (collection_id +:+ extention) in
       let root := indent xml_tree in
       (Machine (<[path := Xml root]> (files m)) (written m ++ [(path, root)]),
        Ok root).

(** The body of [for anth_id in anth_ids_single]. *)
Definition single_step (collection_id extention : string) (tree : element)
    (anth_id : string) : run element :=
  if Py.contains collection_id anth_id then
    tree' <- lift (add_video_tag_single anth_id tree) ;;
    update_xml DATA_DIR collection_id extention tree'
  else ret tree.

(** The body of [for anth_id_vid_num in anth_ids_multiple]. *)
Definition multiple_step (collection_id extention : string) (tree : element)
    (anth_id_vid_num : list string) : run element :=
  let anth_id := nth 0 anth_id_vid_num "" in
  let vid_num := nth 1 anth_id_vid_num "" in
  if Py.contains collection_id anth_id then
    tree' <- lift (add_video_tag_multiple anth_id vid_num tree) ;;
    update_xml DATA_DIR collection_id extention tree'
  else ret tree.

(** The shape that the two loop bodies share: insert and write when the
    code of the document occurs in the identifier, skip otherwise. *)
Definition tag_and_write (collection_id extention : string) (matched : bool)
    (inserted : result element) (tree : element) : run element :=
  if matched then
    tree' <- lift inserted ;;
    update_xml DATA_DIR collection_id extention tree'
  else ret tree.


(** The identifiers of a list that the loops process for a document. *)
Definition matching_single (collection_id : string) (ids : list string)
  : list string :=
  List.filter (Py.contains collection_id) ids.

Definition matching_multiple (collection_id : string) (entries : list (list string))
  : list (list string) :=
  List.filter (λ entry, Py.contains collection_id (nth 0 entry "")) entries.

(** The body of [for file in xml_files]. *)
Definition process_file (anth_ids_single : list string)
    (anth_ids_multiple : list (list string)) (file : string) : run unit :=
  let '(collection_id, extention) := OsPath.splitext file in
  tree <- et_parse (OsPath.join DATA_DIR file) ;;
  tree <- for_fold (single_step collection_id extention) anth_ids_single tree ;;
  _ <- for_fold (multiple_step collection_id extention) anth_ids_multiple tree ;;
  ret tt.

Definition select_xml_files (collection_ids : list string) : list string :=
  List.filter (λ file, bool_decide ((OsPath.splitext file).1 ∈ collection_ids))
              (listdir DATA_DIR).

Definition main (video_dir : string) : run unit :=
  let collection_ids := get_collection_ids video_dir in
  let xml_files := select_xml_files collection_ids in
  let '(anth_ids_single, anth_ids_multiple) := get_anth_ids video_dir in
  for_each (process_file anth_ids_single anth_ids_multiple) xml_files.

(** ** Facts about strings and paths *)

Lemma string_app_cons x (a b : string) : String x a +:+ b = String x (a +:+ b).
Proof. reflexivity. Qed.

Lemma string_app_nil_l (b : string) : "" +:+ b = b.
Proof. reflexivity. Qed.

Ltac str_simpl :=
  repeat (progress (rewrite ?string_app_cons, ?string_app_nil_l in *; simpl in * )).

Lemma split_nonempty sep s : Py.split sep s ≠ [].
Proof. destruct s as [|c s]; str_simpl; [done|]. case_decide; [done|]. by destruct (Py.split sep s). Qed.

Lemma split_length_pos sep s : 1 ≤ length (Py.split sep s).
Proof. pose proof (split_nonempty sep s). destruct (Py.split sep s); str_simpl; [done|lia]. Qed.

Lemma split_no_sep sep s : Py.has_char sep s = false → Py.split sep s = [s].
Proof.
  induction s as [|c s IH]; str_simpl; [done|].
  intros [Hc Hs]%orb_false_elim. apply bool_decide_eq_false in Hc.
  rewrite decide_False by done. by rewrite IH.
Qed.

Lemma split_app sep a b :
  Py.has_char sep a = false →
  Py.split sep (a +:+ String sep b) = a :: Py.split sep b.
Proof.
  induction a as [|c a IH]; str_simpl.
  - intros _. by rewrite decide_True.
  - intros [Hc Ha]%orb_false_elim. apply bool_decide_eq_false in Hc.
    rewrite decide_False by done. by rewrite IH.
Qed.

Lemma split_has_sep sep s :
  Py.has_char sep s = true → 2 ≤ length (Py.split sep s).
Proof.
  induction s as [|c s IH]; str_simpl; [done|].
  case_decide as Hc.
  - intros _. pose proof (split_length_pos sep s). str_simpl. lia.
  - rewrite bool_decide_eq_false_2 by done. str_simpl. intros Hs%IH.
    destruct (Py.split sep s); str_simpl; lia.
Qed.

Lemma split_length_1 sep s :
  length (Py.split sep s) = 1 → Py.has_char sep s = false.
Proof.
  intros Hlen. destruct (Py.has_char sep s) eqn:E; [|done].
  apply split_has_sep in E. lia.
Qed.

Lemma has_char_app c a b :
  Py.has_char c (a +:+ b) = Py.has_char c a || Py.has_char c b.
Proof. induction a as [|x a IH]; str_simpl; [done|]. by rewrite IH, orb_assoc. Qed.

Lemma string_app_assoc (a b c : string) : (a +:+ b) +:+ c = a +:+ (b +:+ c).
Proof. induction a as [|x a IH]; str_simpl; [done|]. by rewrite IH. Qed.

Lemma string_app_nil_r (a : string) : a +:+ "" = a.
Proof. induction a as [|x a IH]; str_simpl; [done|]. by rewrite IH. Qed.

Lemma string_app_length (a b : string) :
  String.length (a +:+ b) = String.length a + String.length b.
Proof. induction a as [|x a IH]; str_simpl; [done|]. by rewrite IH. Qed.

Lemma slice_from_app a b : Py.slice_from (String.length a) (a +:+ b) = b.
Proof. induction a as [|x a IH]; str_simpl; [by destruct b|done]. Qed.

Lemma slice_from_app_S a c b :
  Py.slice_from (S (String.length a)) (a +:+ String c b) = b.
Proof. induction a as [|x a IH]; str_simpl; [by destruct b|done]. Qed.

(** Stripping never removes more than the text has: the text is the
    removed prefix followed by what is kept. *)
Lemma slice_from_spec n s :
  ∃ prefix, s = prefix +:+ Py.slice_from n s ∧
            String.length prefix = n `min` String.length s.
Proof.
  revert s. induction n as [|n IH]; intros s.
  - exists "". by destruct s.
  - destruct s as [|c s]; [by exists ""|].
    destruct (IH s) as (p & Hp & Hlen). exists (String c p). str_simpl.
    split; [by rewrite <- Hp|]. by rewrite Hlen.
Qed.

Lemma startswith_spec p s : Py.startswith p s = true ↔ ∃ t, s = p +:+ t.
Proof.
  revert s. induction p as [|a p IH]; intros s; str_simpl.
  - split; [by exists s|done].
  - destruct s as [|b s].
    + split; [done|]. by intros [t ?].
    + rewrite andb_true_iff, bool_decide_eq_true, IH. split.
      * intros [-> [t ->]]. by exists t.
      * intros [t [= -> ->]]. eauto.
Qed.

Lemma endswith_spec p s : Py.endswith p s = true ↔ ∃ t, s = t +:+ p.
Proof.
  induction s as [|c s IH]; str_simpl.
  - rewrite orb_false_r, bool_decide_eq_true. split.
    + intros <-. by exists "".
    + intros [[|??] E]; str_simpl; [done|discriminate].
  - rewrite orb_true_iff, bool_decide_eq_true, IH. split.
    + intros [<- | [t ->]]; [by exists ""|by exists (String c t)].
    + intros [[|x t] E]; str_simpl; [by left|].
      injection E as -> ->. right. by exists t.
Qed.

Lemma endswith_has_char c p s :
  Py.has_char c p = true → Py.endswith p s = true → Py.has_char c s = true.
Proof.
  intros Hp [t ->]%endswith_spec. rewrite has_char_app, Hp. apply orb_true_r.
Qed.

Lemma rstrip_app_sep sep s :
  Py.rstrip sep (s +:+ String sep "") = Py.rstrip sep s.
Proof.
  induction s as [|c s IH]; str_simpl; [by rewrite decide_True|]. by rewrite IH.
Qed.

Lemma rstrip_fixed sep s c :
  c ≠ sep → Py.rstrip sep (s +:+ String c "") = s +:+ String c "".
Proof.
  intros Hc. induction s as [|x s IH]; str_simpl; [by rewrite decide_False|].
  rewrite IH. by destruct s.
Qed.

(** A text is empty, ends with the separator, or ends with another
    character. *)
Lemma string_last_cases (sep : ascii) s :
  s = "" ∨ (∃ t, s = t +:+ String sep "") ∨ (∃ t c, c ≠ sep ∧ s = t +:+ String c "").
Proof.
  induction s as [|x s IH]; [by left|]. right.
  destruct IH as [-> | [[t ->] | (t & c & Hc & ->)]].
  - destruct (decide (x = sep)) as [->|Hx]; [left; by exists ""|].
    right. by exists "", x.
  - left. by exists (String x t).
  - right. by exists (String x t), c.
Qed.

Lemma endswith_last_char (sep c : ascii) t :
  c ≠ sep → Py.endswith (String sep "") (t +:+ String c "") = false.
Proof.
  intros Hc. apply not_true_is_false. intros [u E]%endswith_spec.
  revert u E. induction t as [|x t IH]; intros [|y u] E; str_simpl.
  - congruence.
  - injection E as -> E. by destruct u.
  - injection E as -> E. by destruct t.
  - injection E as -> E. eauto.
Qed.

(** *** [os.path] *)

Lemma cut_after_last_none c t :
  Py.has_char c t = false → OsPath.cut_after_last c t = ("", t).
Proof.
  induction t as [|x t IH]; simpl; [done|].
  intros [Hx Ht]%orb_false_elim. apply bool_decide_eq_false in Hx.
  rewrite IH by done. by rewrite decide_False.
Qed.

Lemma cut_after_last_app c h t :
  Py.has_char c t = false →
  OsPath.cut_after_last c (h +:+ String c t) = (h +:+ String c "", t).
Proof.
  intros Ht. induction h as [|x h IH]; str_simpl.
  - rewrite cut_after_last_none by done. by rewrite decide_True.
  - rewrite IH. by destruct h.
Qed.

(** Cutting loses nothing. *)
Lemma cut_after_last_app_eq c p h t :
  OsPath.cut_after_last c p = (h, t) → p = h +:+ t.
Proof.
  revert h t. induction p as [|x p IH]; simpl; intros h t.
  - by intros [= <- <-].
  - destruct (OsPath.cut_after_last c p) as [h' t'].
    specialize (IH _ _ eq_refl) as ->. destruct h' as [|y h'].
    + case_decide; by intros [= <- <-].
    + by intros [= <- <-].
Qed.

Lemma cut_at_last_app_eq c p h t :
  OsPath.cut_at_last c p = Some (h, t) → p = h +:+ t.
Proof.
  revert h t. induction p as [|x p IH]; simpl; intros h t; [done|].
  destruct (OsPath.cut_at_last c p) as [[h' t']|].
  - specialize (IH _ _ eq_refl) as ->. by intros [= <- <-].
  - case_decide; [|done]. by intros [= <- <-].
Qed.

(** [splitext] cuts the path in two: root and extension put together
    again are the path. *)
Lemma splitext_app p : (OsPath.splitext p).1 +:+ (OsPath.splitext p).2 = p.
Proof.
  unfold OsPath.splitext.
  destruct (OsPath.cut_after_last OsPath.sep p) as [dir base] eqn:Hcut.
  apply cut_after_last_app_eq in Hcut.
  destruct (OsPath.cut_at_last OsPath.extsep base) as [[stem ext]|] eqn:Hext;
    simpl; [|apply string_app_nil_r].
  apply cut_at_last_app_eq in Hext.
  destruct (OsPath.only_dots stem); simpl; [apply string_app_nil_r|].
  by rewrite string_app_assoc, <- Hext.
Qed.

Lemma startswith_sep_has_char b :
  Py.has_char "/" b = false → Py.startswith "/" b = false.
Proof.
  destruct b as [|x b]; simpl; [done|].
  intros [Hx _]%orb_false_elim. apply bool_decide_eq_false in Hx.
  rewrite bool_decide_eq_false_2; [done|congruence].
Qed.

(** For a file name, [join] puts the directory in front, with a
    separator unless the directory brings one. *)
Lemma join_name a b :
  Py.has_char "/" b = false →
  OsPath.join a b =
    if bool_decide (a = "") || Py.endswith "/" a then a +:+ b else a +:+ "/" +:+ b.
Proof. intros Hb. unfold OsPath.join. by rewrite startswith_sep_has_char. Qed.

Lemma join_name_inj a b b' :
  Py.has_char "/" b = false → Py.has_char "/" b' = false →
  OsPath.join a b = OsPath.join a b' → b = b'.
Proof.
  intros Hb Hb'. rewrite !join_name by done.
  destruct (_ || _); intros E.
  - by apply (inj (String.app a)) in E.
  - apply (inj (String.app a)) in E. by apply (inj (String.app "/")) in E.
Qed.

Lemma split_pattern video_dir :
  (OsPath.split (video_dir +:+ "/*.mp4")).1 =
    match Py.rstrip "/" video_dir with
    | "" => video_dir +:+ "/"
    | stripped => stripped
    end.
Proof.
  unfold OsPath.split, OsPath.sep.
  rewrite (cut_after_last_app "/" video_dir "*.mp4") by done.
  rewrite rstrip_app_sep. by destruct (Py.rstrip "/" video_dir).
Qed.

Lemma app_last_not_empty (t : string) c : t +:+ String c "" ≠ "".
Proof. by destruct t. Qed.

(** The directory that the pattern names, by the end of [video_dir]. *)
Lemma dirname_no_trailing_sep t c :
  c ≠ "/"%char →
  (OsPath.split ((t +:+ String c "") +:+ "/*.mp4")).1 = t +:+ String c "".
Proof.
  intros Hc. rewrite split_pattern, rstrip_fixed by done.
  pose proof (app_last_not_empty t c). by destruct (t +:+ String c "").
Qed.

Lemma dirname_one_trailing_sep t c :
  c ≠ "/"%char →
  (OsPath.split (((t +:+ String c "") +:+ "/") +:+ "/*.mp4")).1 = t +:+ String c "".
Proof.
  intros Hc. rewrite split_pattern, rstrip_app_sep, rstrip_fixed by done.
  pose proof (app_last_not_empty t c). by destruct (t +:+ String c "").
Qed.

Lemma has_magic_app a b : has_magic (a +:+ b) = has_magic a || has_magic b.
Proof.
  unfold has_magic. rewrite !has_char_app.
  repeat destruct (Py.has_char _ _); done.
Qed.

Lemma matches_mp4_has_dot name : matches_mp4 name = true → Py.has_char "." name = true.
Proof.
  unfold matches_mp4. intros [_ H]%andb_true_iff.
  by apply (endswith_has_char "." ".mp4").
Qed.

(** *** The files that the pattern enumerates *)

Lemma glob_mp4_literal video_dir file :
  has_magic (OsPath.split (video_dir +:+ "/*.mp4")).1 = false →
  In file (glob_mp4 video_dir) ↔
  ∃ name, In name (listdir (OsPath.split (video_dir +:+ "/*.mp4")).1) ∧
          matches_mp4 name = true ∧
          file = OsPath.join (OsPath.split (video_dir +:+ "/*.mp4")).1 name.
Proof.
  intros Hmagic. unfold glob_mp4. rewrite Hmagic. simpl. rewrite app_nil_r.
  rewrite List.in_map_iff. split.
  - intros (name & <- & [Hin Hm]%List.filter_In). eauto.
  - intros (name & Hin & Hm & ->). exists name. split; [done|].
    by apply List.filter_In.
Qed.

(** Without wildcard characters and without a separator at the end of
    [video_dir], the paths are [video_dir], a separator and a file name. *)
Lemma glob_no_trailing_sep video_dir file :
  entries_are_names →
  has_magic video_dir = false →
  Py.endswith "/" video_dir = false →
  In file (glob_mp4 video_dir) →
  ∃ name, matches_mp4 name = true ∧ Py.has_char "/" name = false ∧
          file = video_dir +:+ String "/" name.
Proof.
  intros Hnames Hmagic Hend.
  destruct (string_last_cases "/" video_dir) as [-> | [[t ->] | (t & c & Hc & ->)]].
  - rewrite glob_mp4_literal by done.
    intros (name & Hin%Hnames & Hm & ->). exists name. repeat split; try done.
    by rewrite join_name.
  - exfalso. apply not_true_iff_false in Hend. apply Hend.
    apply endswith_spec. by exists t.
  - assert (Hdir := dirname_no_trailing_sep t c Hc).
    rewrite glob_mp4_literal by (by rewrite Hdir).
    rewrite Hdir. intros (name & Hin%Hnames & Hm & ->).
    exists name. repeat split; try done. rewrite join_name by done.
    rewrite (endswith_last_char "/" c t) by done.
    rewrite bool_decide_eq_false_2 by apply app_last_not_empty. done.
Qed.

(** With at most one separator at the end of [video_dir], stripping
    [len(video_dir)] characters leaves the file name, or the file name
    behind a separator. *)
Lemma glob_stripped video_dir file :
  entries_are_names →
  has_magic video_dir = false →
  Py.endswith "//" video_dir = false →
  In file (glob_mp4 video_dir) →
  ∃ name, matches_mp4 name = true ∧ Py.has_char "/" name = false ∧
          (Py.slice_from (String.length video_dir) file = name ∨
           Py.slice_from (String.length video_dir) file = String "/" name).
Proof.
  intros Hnames Hmagic Hend Hin.
  destruct (Py.endswith "/" video_dir) eqn:Hsep.
  - apply endswith_spec in Hsep as [t ->].
    destruct (string_last_cases "/" t) as [-> | [[u ->] | (u & c & Hc & ->)]].
    + revert Hin. rewrite glob_mp4_literal by done.
      intros (name & Hn%Hnames & Hm & ->). exists name. repeat split; try done.
      right. by rewrite join_name.
    + exfalso. apply not_true_iff_false in Hend. apply Hend.
      apply endswith_spec. exists u. by rewrite string_app_assoc.
    + assert (Hdir := dirname_one_trailing_sep u c Hc).
      rewrite has_magic_app in Hmagic. apply orb_false_elim in Hmagic as [Hmagic _].
      revert Hin. rewrite glob_mp4_literal by (by rewrite Hdir).
      rewrite Hdir. intros (name & Hn%Hnames & Hm & ->).
      exists name. repeat split; try done. left. rewrite join_name by done.
      rewrite (endswith_last_char "/" c u) by done.
      rewrite bool_decide_eq_false_2 by apply app_last_not_empty. simpl.
      rewrite <- (string_app_assoc _ "/" name). apply slice_from_app.
  - destruct (glob_no_trailing_sep video_dir file) as (name & Hm & Hn & ->); try done.
    exists name. repeat split; try done. right. apply slice_from_app.
Qed.

(** Entries of the two lists come from enumerated files. *)
Lemma in_anth_ids_single video_dir anth_id :
  In anth_id (get_anth_ids video_dir).1 ↔
  ∃ file, In file (glob_mp4 video_dir) ∧
          length (segments video_dir file) = 2 ∧
          anth_id = Py.first (segments video_dir file).
Proof.
  unfold get_anth_ids. simpl. rewrite List.in_map_iff. split.
  - intros (file & <- & [Hin Hlen%Nat.eqb_eq]%List.filter_In). eauto.
  - intros (file & Hin & Hlen & ->). exists file. split; [done|].
    apply List.filter_In. by rewrite Nat.eqb_eq.
Qed.

Lemma sort_In l e : In e (Py.sort l) ↔ In e l.
Proof.
  unfold Py.sort. rewrite <- !list_elem_of_In.
  by rewrite (merge_sort_Permutation Py.list_le l).
Qed.

Lemma in_anth_ids_multiple video_dir entry :
  In entry (get_anth_ids video_dir).2 ↔
  ∃ file, In file (glob_mp4 video_dir) ∧
          2 < length (segments video_dir file) ∧
          entry = Py.but_last (segments video_dir file).
Proof.
  unfold get_anth_ids. simpl. rewrite sort_In, List.in_map_iff. split.
  - intros (file & <- & [Hin Hlen%Nat.ltb_lt]%List.filter_In). eauto.
  - intros (file & Hin & Hlen & ->). exists file. split; [done|].
    apply List.filter_In. by rewrite Nat.ltb_lt.
Qed.

(** *** The order of [sort] *)

Lemma compare_lt_trans x y z :
  String.compare x y = Lt → String.compare y z = Lt → String.compare x z = Lt.
Proof.
  intros Hxy Hyz.
  assert (String.le x y) as Lxy by (unfold String.le, String.leb; by rewrite Hxy).
  assert (String.le y z) as Lyz by (unfold String.le, String.leb; by rewrite Hyz).
  assert (String.le x z) as Lxz by (by etrans).
  destruct (String.compare x z) eqn:Hxz; [|done|].
  - apply String.compare_eq_iff in Hxz as ->.
    rewrite String.compare_antisym, Hyz in Hxy. done.
  - unfold String.le, String.leb in Lxz. by rewrite Hxz in Lxz.
Qed.

#[local] Instance list_le_total : Total Py.list_le.
Proof.
  intros a b. unfold Py.list_le. revert b.
  induction a as [|x a IH]; intros [|y b]; simpl; auto.
  rewrite (String.compare_antisym y x).
  destruct (String.compare x y); simpl; auto.
Qed.

#[local] Instance list_le_trans : Transitive Py.list_le.
Proof.
  intros a b c. unfold Py.list_le. revert b c.
  induction a as [|x a IH]; intros [|y b] [|z c]; simpl; try done.
  destruct (String.compare x y) eqn:Hxy; [| |done].
  - apply String.compare_eq_iff in Hxy as ->.
    destruct (String.compare y z); [|done..]. apply IH.
  - destruct (String.compare y z) eqn:Hyz; [| |done].
    + apply String.compare_eq_iff in Hyz as ->. by rewrite Hxy.
    + by rewrite (compare_lt_trans x y z).
Qed.

(** On pairs the order is the lexicographic one: first by identifier,
    then by sequence number, both compared as text. *)
Lemma list_le_pair a n b m :
  Py.list_le [a; n] [b; m] ↔
  String.compare a b = Lt ∨ (a = b ∧ String.compare n m ≠ Gt).
Proof.
  unfold Py.list_le. simpl.
  destruct (String.compare a b) eqn:Hab.
  - apply String.compare_eq_iff in Hab as ->.
    destruct (String.compare n m); split; try done; auto;
      intros [?|[_ ?]]; done.
  - split; auto.
  - split; [done|]. intros [?|[-> _]]; [done|].
    pose proof (String.compare_antisym b b) as E. rewrite Hab in E. done.
Qed.

Lemma sort_sorted l : StronglySorted Py.list_le (Py.sort l).
Proof. apply StronglySorted_merge_sort; apply _. Qed.

Lemma sort_permutation l : Py.sort l ≡ₚ l.
Proof. apply merge_sort_Permutation. Qed.

Lemma all_digits_no_dot n : Py.all_digits n = true → Py.has_char "." n = false.
Proof.
  induction n as [|c n IH]; simpl; [done|].
  intros [Hc Hn]%andb_true_iff. rewrite IH by done.
  rewrite orb_false_r. apply bool_decide_eq_false. intros ->. done.
Qed.

(** ** The scanner *)

Lemma strongly_sorted_lookup {A} (R : relation A) (l : list A) i j x y :
  StronglySorted R l → i < j → l !! i = Some x → l !! j = Some y → R x y.
Proof.
  intros Hs. revert i j. induction Hs as [|a l Hs IH Hall]; intros i j Hij Hi Hj.
  - done.
  - destruct j as [|j]; [lia|]. destruct i as [|i]; simpl in *.
    + injection Hi as ->. rewrite List.Forall_forall in Hall. apply Hall.
      apply list_elem_of_In. by eapply list_elem_of_lookup_2.
    + apply (IH i j); [lia|done..].
Qed.

Lemma first_split_keeps c sep s :
  c ≠ sep → Py.first (Py.split sep (String c s)) = String c (Py.first (Py.split sep s)).
Proof.
  intros Hc. simpl. rewrite decide_False by done.
  pose proof (split_nonempty sep s). by destruct (Py.split sep s).
Qed.

Lemma but_last_length (l : list string) : length (Py.but_last l) = length l - 1.
Proof.
  unfold Py.but_last. induction l as [|x [|y l] IH]; simpl in *; [done..|].
  rewrite IH. lia.
Qed.

(** C2: a file whose name after the directory prefix is [<id>.mp4], two
    segments between periods, is a single-video file: [<id>] is in the
    single-video list, the name carries no sequence number, and no entry
    of the multi-video list stems from it. *)
Theorem single_video_file video_dir file anth_id :
  In file (glob_mp4 video_dir) →
  Py.slice_from (String.length video_dir) file = anth_id +:+ ".mp4" →
  Py.has_char "." anth_id = false →
  segments video_dir file = [anth_id; "mp4"] ∧
  In anth_id (get_anth_ids video_dir).1 ∧
  (∀ entry, In entry (get_anth_ids video_dir).2 →
     2 ≤ length entry ∧
     ∃ other, In other (glob_mp4 video_dir) ∧ other ≠ file ∧
              entry = Py.but_last (segments video_dir other)).
Proof.
  intros Hin Hname Hid.
  assert (segments video_dir file = [anth_id; "mp4"]) as Hseg.
  { unfold segments. rewrite Hname.
    rewrite (split_app "." anth_id "mp4") by done. done. }
  split; [done|]. split.
  - apply in_anth_ids_single. exists file. by rewrite Hseg.
  - intros entry (other & Hother & Hlen & ->)%in_anth_ids_multiple. split.
    + rewrite but_last_length. lia.
    + exists other. repeat split; try done. intros ->.
      rewrite Hseg in Hlen. simpl in Hlen. lia.
Qed.

(** C3: a file whose name after the directory prefix is [<id>.<n>.mp4]
    with a numeric [<n>] gives the entry [[<id>, <n>]] of the multi-video
    list, and that list is sorted: entries are in the order of Python
    lists, so pairs are ordered by identifier first and sequence number
    second, both compared as text. *)
Theorem multi_video_file video_dir file anth_id n :
  In file (glob_mp4 video_dir) →
  Py.slice_from (String.length video_dir) file = anth_id +:+ "." +:+ n +:+ ".mp4" →
  Py.has_char "." anth_id = false →
  Py.isdigit n = true →
  In [anth_id; n] (get_anth_ids video_dir).2 ∧
  StronglySorted Py.list_le (get_anth_ids video_dir).2 ∧
  (∀ i j a k b m,
     i < j →
     (get_anth_ids video_dir).2 !! i = Some [a; k] →
     (get_anth_ids video_dir).2 !! j = Some [b; m] →
     String.compare a b = Lt ∨ (a = b ∧ String.compare k m ≠ Gt)).
Proof.
  intros Hin Hname Hid [_ Hn%all_digits_no_dot]%andb_true_iff.
  assert (segments video_dir file = [anth_id; n; "mp4"]) as Hseg.
  { unfold segments. rewrite Hname.
    rewrite string_app_cons, string_app_nil_l.
    rewrite (split_app "." anth_id) by done.
    rewrite (split_app "." n "mp4") by done. done. }
  assert (StronglySorted Py.list_le (get_anth_ids video_dir).2) as Hsorted
    by apply sort_sorted.
  split; [|split; [done|]].
  - apply in_anth_ids_multiple. exists file. rewrite Hseg. simpl.
    repeat split; [done|lia].
  - intros i j a k b m Hij Hi Hj. apply list_le_pair.
    by eapply (strongly_sorted_lookup Py.list_le).
Qed.

(** C8, as amended: under a [video_dir] without wildcard characters and
    with at most one separator at its end, where the entries of a
    directory are file names, every enumerated file has at least two
    segments, meets exactly one of the two conditions of the scanner and
    has its entry in the list of that condition. *)
Theorem scanned_file_classified video_dir file :
  entries_are_names →
  has_magic video_dir = false →
  Py.endswith "//" video_dir = false →
  In file (glob_mp4 video_dir) →
  2 ≤ length (segments video_dir file) ∧
  Nat.eqb (length (segments video_dir file)) 2
    = negb (Nat.ltb 2 (length (segments video_dir file))) ∧
  ((length (segments video_dir file) = 2 ∧
    In (Py.first (segments video_dir file)) (get_anth_ids video_dir).1) ∨
   (2 < length (segments video_dir file) ∧
    In (Py.but_last (segments video_dir file)) (get_anth_ids video_dir).2)).
Proof.
  intros Hnames Hmagic Hend Hin.
  assert (2 ≤ length (segments video_dir file)) as Hlen.
  { destruct (glob_stripped video_dir file) as (name & Hm & _ & Hcut); try done.
    apply matches_mp4_has_dot in Hm. unfold segments. apply split_has_sep.
    destruct Hcut as [-> | ->]; [done|]. simpl. by rewrite Hm. }
  split; [done|]. split.
  - destruct (Nat.eqb_spec (length (segments video_dir file)) 2) as [->|Hne]; [done|].
    symmetry. apply negb_false_iff, Nat.ltb_lt. lia.
  - destruct (decide (length (segments video_dir file) = 2)) as [E|E].
    + left. split; [done|]. apply in_anth_ids_single. eauto.
    + right. split; [lia|]. apply in_anth_ids_multiple. exists file.
      repeat split; [done|lia].
Qed.

(** C9, as amended: under a [video_dir] without wildcard characters
    that does not end with a separator, where the entries of a directory
    are file names, every enumerated path is [video_dir], a separator and
    a file name; the [len(video_dir)] characters removed are [video_dir]
    itself, the separator stays, and every derived identifier begins with
    it, in both lists. *)
Theorem identifier_keeps_separator video_dir :
  entries_are_names →
  has_magic video_dir = false →
  Py.endswith "/" video_dir = false →
  (∀ file, In file (glob_mp4 video_dir) →
     ∃ name, Py.has_char "/" name = false ∧
             file = video_dir +:+ String "/" name ∧
             Py.slice_from (String.length video_dir) file = String "/" name ∧
             Py.first (segments video_dir file)
               = String "/" (Py.first (Py.split "." name))) ∧
  (∀ anth_id, In anth_id (get_anth_ids video_dir).1 →
     Py.startswith "/" anth_id = true) ∧
  (∀ entry, In entry (get_anth_ids video_dir).2 →
     Py.startswith "/" (nth 0 entry "") = true).
Proof.
  intros Hnames Hmagic Hend.
  assert (∀ file, In file (glob_mp4 video_dir) →
     ∃ name, Py.has_char "/" name = false ∧
             file = video_dir +:+ String "/" name ∧
             Py.slice_from (String.length video_dir) file = String "/" name ∧
             Py.first (segments video_dir file)
               = String "/" (Py.first (Py.split "." name))) as Hfile.
  { intros file Hin.
    destruct (glob_no_trailing_sep video_dir file) as (name & _ & Hn & ->); try done.
    exists name. repeat split; try done.
    - apply slice_from_app.
    - unfold segments. rewrite slice_from_app. by apply first_split_keeps. }
  split; [done|]. split.
  - intros anth_id (file & Hin & _ & ->)%in_anth_ids_single.
    destruct (Hfile file Hin) as (name & _ & _ & _ & ->). done.
  - intros entry (file & Hin & Hlen & ->)%in_anth_ids_multiple.
    destruct (Hfile file Hin) as (name & _ & _ & _ & Hfirst).
    unfold Py.first in Hfirst.
    destruct (segments video_dir file) as [|w [|w' ws]]; simpl in *; [lia..|].
    by rewrite Hfirst.
Qed.

(** ** The path query and the insertion *)

Lemma index_where_Some {A} (p : A → bool) l j :
  Etree.index_where p l = Some j →
  (∃ x, l !! j = Some x ∧ p x = true) ∧
  (∀ k y, k < j → l !! k = Some y → p y = false).
Proof.
  revert j. induction l as [|x l IH]; simpl; intros j; [done|].
  destruct (p x) eqn:Hx.
  - intros [= <-]. split; [eauto|]. intros; lia.
  - destruct (Etree.index_where p l) as [j'|]; simpl; [|done].
    intros [= <-]. destruct (IH j' eq_refl) as [Hj Hfirst]. split; [done|].
    intros [|k] y Hk; simpl; [by intros [= <-]|]. apply Hfirst. lia.
Qed.

Lemma index_where_None {A} (p : A → bool) l :
  Etree.index_where p l = None → ∀ k x, l !! k = Some x → p x = false.
Proof.
  induction l as [|x l IH]; simpl; [done|].
  destruct (p x) eqn:Hx; [done|].
  destruct (Etree.index_where p l); simpl; [done|].
  intros _ [|k] y; simpl; [by intros [= <-]|]. by apply IH.
Qed.

Lemma find_in_Some vs i V P r :
  Etree.find_in vs i V P = Some r →
  ∃ k vol pap,
    r.1 = i + k ∧ vs !! k = Some vol ∧
    Etree.step_matches "volume" V vol = true ∧
    Etree.children vol !! r.2 = Some pap ∧
    Etree.step_matches "paper" P pap = true ∧
    (∀ k' j' vol' pap',
       vs !! k' = Some vol' → Etree.step_matches "volume" V vol' = true →
       Etree.children vol' !! j' = Some pap' →
       Etree.step_matches "paper" P pap' = true →
       k < k' ∨ (k = k' ∧ r.2 ≤ j')).
Proof.
  revert i. induction vs as [|v vs IH]; simpl; intros i; [done|].
  assert (Etree.find_in vs (S i) V P = Some r →
    ((∀ j' pap', Etree.step_matches "volume" V v = true →
        Etree.children v !! j' = Some pap' →
        Etree.step_matches "paper" P pap' = false)) →
    ∃ k vol pap,
      r.1 = i + k ∧ (v :: vs) !! k = Some vol ∧
      Etree.step_matches "volume" V vol = true ∧
      Etree.children vol !! r.2 = Some pap ∧
      Etree.step_matches "paper" P pap = true ∧
      (∀ k' j' vol' pap',
         (v :: vs) !! k' = Some vol' → Etree.step_matches "volume" V vol' = true →
         Etree.children vol' !! j' = Some pap' →
         Etree.step_matches "paper" P pap' = true →
         k < k' ∨ (k = k' ∧ r.2 ≤ j'))) as Hrest.
  { intros Hfind Hmiss.
    destruct (IH _ Hfind) as (k & vol & pap & Hr & Hk & Hv & Hj & Hp & Hfirst).
    exists (S k), vol, pap. split_and!; try done; try lia.
    intros [|k'] j' vol' pap'; simpl.
    - intros [= <-] Hv' Hj' Hp'. rewrite (Hmiss j' pap') in Hp'; done.
    - intros Hk' Hv' Hj' Hp'.
      destruct (Hfirst k' j' vol' pap') as [?|[? ?]]; try done; [left; lia|right; lia]. }
  destruct (Etree.step_matches "volume" V v) eqn:Hv.
  - destruct (Etree.index_where _ (Etree.children v)) as [j|] eqn:Hidx.
    + intros [= <-]. apply index_where_Some in Hidx as [(pap & Hj & Hp) Hfirst].
      exists 0, v, pap. simpl. split_and!; try done; try lia.
      intros [|k'] j' vol' pap'; simpl; [|intros; left; lia].
      intros [= <-] _ Hj' Hp'. right. split; [done|].
      destruct (decide (j ≤ j')); [done|].
      rewrite (Hfirst j' pap') in Hp'; [done|lia|done].
    + intros Hfind. apply Hrest; [done|]. intros j' pap' _.
      by apply index_where_None.
  - intros Hfind. apply Hrest; [done|]. done.
Qed.

Lemma find_in_None vs i V P :
  Etree.find_in vs i V P = None →
  ∀ k j vol pap,
    vs !! k = Some vol → Etree.step_matches "volume" V vol = true →
    Etree.children vol !! j = Some pap →
    Etree.step_matches "paper" P pap = false.
Proof.
  revert i. induction vs as [|v vs IH]; simpl; intros i; [done|].
  destruct (Etree.step_matches "volume" V v) eqn:Hv.
  - destruct (Etree.index_where _ (Etree.children v)) as [j|] eqn:Hidx; [done|].
    intros Hfind [|k] j vol pap; simpl.
    + intros [= <-] _. by apply index_where_None.
    + by apply IH with (S i).
  - intros Hfind [|k] j vol pap; simpl.
    + intros [= <-]. by rewrite Hv.
    + by apply IH with (S i).
Qed.

(** [find] returns a paper with the wanted ids, the first in document
    order. *)
Lemma find_Some root V P r :
  Etree.find root V P = Some r →
  ∃ vol pap,
    Etree.paper_at root V P r vol pap ∧
    ∀ r' vol' pap', Etree.paper_at root V P r' vol' pap' → Etree.ref_le r r'.
Proof.
  intros (k & vol & pap & Hr & Hk & Hv & Hj & Hp & Hfirst)%find_in_Some.
  simpl in Hr. subst k. exists vol, pap. split; [done|].
  intros [k' j'] vol' pap' (Hk' & Hv' & Hj' & Hp'). unfold Etree.ref_le. simpl in *.
  by apply (Hfirst k' j' vol' pap').
Qed.

(** [find] misses exactly when the document has no such paper. *)
Lemma find_None root V P :
  Etree.find root V P = None ↔ ¬ Etree.has_paper root V P.
Proof.
  split.
  - intros Hfind ([k j] & vol & pap & Hk & Hv & Hj & Hp). simpl in *.
    rewrite (find_in_None _ _ _ _ Hfind k j vol pap) in Hp; done.
  - intros Hno. destruct (Etree.find root V P) as [r|] eqn:Hfind; [|done].
    apply find_Some in Hfind as (vol & pap & Hat & _).
    exfalso. apply Hno. by exists r, vol, pap.
Qed.

Lemma find_has_paper root V P :
  Etree.has_paper root V P → ∃ r, Etree.find root V P = Some r.
Proof.
  intros Hhas. destruct (Etree.find root V P) as [r|] eqn:Hfind; [eauto|].
  by apply find_None in Hfind.
Qed.

Lemma children_alter_child f i e :
  Etree.children (Etree.alter_child f i e) = alter f i (Etree.children e).
Proof. by destruct e. Qed.

Lemma children_append_child new e :
  Etree.children (Etree.append_child new e) = Etree.children e ++ [new].
Proof. by destruct e. Qed.

Lemma step_matches_alter_child name ident f i e :
  Etree.step_matches name ident (Etree.alter_child f i e)
  = Etree.step_matches name ident e.
Proof. by destruct e. Qed.

Lemma step_matches_append_child name ident new e :
  Etree.step_matches name ident (Etree.append_child new e)
  = Etree.step_matches name ident e.
Proof. by destruct e. Qed.

Lemma index_where_alter {A} (p : A → bool) (f : A → A) j l :
  (∀ x, p (f x) = p x) →
  Etree.index_where p (alter f j l) = Etree.index_where p l.
Proof.
  intros Hf. revert j. induction l as [|x l IH]; intros [|j]; try done.
  - simpl. by rewrite Hf.
  - change (alter f (S j) (x :: l)) with (x :: alter f j l).
    simpl. by rewrite IH.
Qed.

Lemma find_in_alter new j k vs i V P :
  Etree.find_in (alter (Etree.alter_child (Etree.append_child new) j) k vs) i V P
  = Etree.find_in vs i V P.
Proof.
  revert k i. induction vs as [|v vs IH]; intros [|k] i; try done.
  - simpl. rewrite step_matches_alter_child, children_alter_child.
    rewrite index_where_alter by (intros; apply step_matches_append_child). done.
  - change (alter ?f (S k) (v :: vs)) with (v :: alter f k vs).
    simpl. by rewrite IH.
Qed.

(** Appending a child to a node two levels down changes no answer of
    the path query. *)
Lemma find_SubElement root r tg att V P :
  Etree.find (Etree.SubElement root r tg att) V P = Etree.find root V P.
Proof.
  unfold Etree.find, Etree.SubElement. rewrite children_alter_child.
  apply find_in_alter.
Qed.

Lemma node_at_SubElement root r tg att pap :
  Etree.node_at root r = Some pap →
  Etree.node_at (Etree.SubElement root r tg att) r
  = Some (Etree.append_child (Element tg att "" [] "") pap).
Proof.
  unfold Etree.node_at, Etree.SubElement. rewrite children_alter_child.
  rewrite list_lookup_alter_eq.
  destruct (Etree.children root !! r.1) as [[t a x c y]|]; simpl; [|done].
  rewrite list_lookup_alter_eq. by intros ->.
Qed.

Lemma node_at_SubElement_ne root r tg att r' :
  r' ≠ r →
  Etree.node_at (Etree.SubElement root r tg att) r' = Etree.node_at root r'.
Proof.
  intros Hne. unfold Etree.node_at, Etree.SubElement.
  rewrite children_alter_child.
  destruct (decide (r'.1 = r.1)) as [E1|E1].
  - rewrite E1, list_lookup_alter_eq.
    destruct (Etree.children root !! r.1) as [[t a x c y]|]; simpl; [|done].
    apply list_lookup_alter_ne.
    intros E2. apply Hne. destruct r, r'; simpl in *; congruence.
  - rewrite list_lookup_alter_ne by done. done.
Qed.

Lemma list_sum_alter f i (l : list element) x :
  l !! i = Some x →
  list_sum (map Etree.size (alter f i l)) + Etree.size x
  = list_sum (map Etree.size l) + Etree.size (f x).
Proof.
  revert i. induction l as [|y l IH]; intros [|i]; try done.
  - simpl. intros [= ->]. lia.
  - change (alter f (S i) (y :: l)) with (y :: alter f i l).
    simpl. intros Hi. specialize (IH i Hi). lia.
Qed.

Lemma size_alter_child f i e x :
  Etree.children e !! i = Some x →
  Etree.size (Etree.alter_child f i e) + Etree.size x
  = Etree.size e + Etree.size (f x).
Proof.
  destruct e as [t a tx c tl]. simpl. intros Hi.
  pose proof (list_sum_alter f i c x Hi). lia.
Qed.

Lemma size_append_child new e :
  Etree.size (Etree.append_child new e) = Etree.size e + Etree.size new.
Proof.
  destruct e as [t a tx c tl]. simpl.
  rewrite map_app, list_sum_app. simpl. lia.
Qed.

(** The insertion adds one element to the tree. *)
Lemma size_SubElement root r tg att pap :
  Etree.node_at root r = Some pap →
  Etree.size (Etree.SubElement root r tg att) = S (Etree.size root).
Proof.
  unfold Etree.node_at, Etree.SubElement.
  destruct (Etree.children root !! r.1) as [vol|] eqn:Hvol; simpl; [|done].
  intros Hpap.
  pose proof (size_alter_child
    (Etree.alter_child (Etree.append_child (Element tg att "" [] "")) r.2)
    r.1 root vol Hvol) as H1.
  pose proof (size_alter_child (Etree.append_child (Element tg att "" [] ""))
    r.2 vol pap Hpap) as H2.
  rewrite size_append_child in H2. simpl in H2. lia.
Qed.

(** ** Tag insertion *)

Lemma append_child_eq new pap :
  Etree.append_child new pap
  = Element (Etree.tag pap) (Etree.attrib pap) (Etree.text pap)
            (Etree.children pap ++ [new]) (Etree.tail pap).
Proof. by destruct pap. Qed.

Lemma paper_at_node_at doc V P r vol pap :
  Etree.paper_at doc V P r vol pap → Etree.node_at doc r = Some pap.
Proof.
  intros (Hvol & _ & Hpap & _). unfold Etree.node_at. by rewrite Hvol.
Qed.

Lemma SubElement_appended doc r tg att pap :
  Etree.node_at doc r = Some pap →
  Etree.appended doc r (Element tg att "" [] "") (Etree.SubElement doc r tg att).
Proof.
  intros Hpap. split; [|split].
  - exists pap. split; [done|].
    rewrite <- append_child_eq. by apply node_at_SubElement.
  - intros r' Hne. by apply node_at_SubElement_ne.
  - rewrite (size_SubElement doc r tg att pap Hpap). simpl. lia.
Qed.

Lemma add_video_tag_single_eq anth_id c V P doc :
  deconstruct_anthology_id anth_id = (c, V, P) →
  add_video_tag_single anth_id doc
  = make_simple_element "video" [("href", anth_id +:+ ".mp4")]
      (Etree.find doc V P) doc.
Proof. intros E. unfold add_video_tag_single. by rewrite E. Qed.

Lemma add_video_tag_multiple_eq anth_id vid_num c V P doc :
  deconstruct_anthology_id anth_id = (c, V, P) →
  add_video_tag_multiple anth_id vid_num doc
  = make_simple_element "video" [("href", anth_id +:+ "." +:+ vid_num +:+ ".mp4")]
      (Etree.find doc V P) doc.
Proof.
  intros E. unfold add_video_tag_multiple. rewrite E.
  by rewrite (string_app_assoc anth_id).
Qed.

(** C1: in a document with a paper [paper_id] under a volume
    [volume_id], the codes holding no double quote so that the path text
    is this query, the insertion for an identifier that decomposes to
    these codes finds such a paper, the first in document order, and
    returns the document with one new element, [<video href="..."/>],
    appended as the last child of that paper; the reference is the
    identifier and [.mp4] for a single video, the identifier, [.<n>] and
    [.mp4] for the video numbered [n]. *)
Theorem video_tag_appended anth_id vid_num collection_id volume_id paper_id doc :
  deconstruct_anthology_id anth_id = (collection_id, volume_id, paper_id) →
  Py.has_char Py.double_quote volume_id = false →
  Py.has_char Py.double_quote paper_id = false →
  Etree.has_paper doc volume_id paper_id →
  ∃ r vol pap,
    Etree.find doc volume_id paper_id = Some r ∧
    Etree.paper_at doc volume_id paper_id r vol pap ∧
    (∀ r' vol' pap',
       Etree.paper_at doc volume_id paper_id r' vol' pap' → Etree.ref_le r r') ∧
    (∃ doc', add_video_tag_single anth_id doc = Ok doc' ∧
             Etree.appended doc r (Etree.video (anth_id +:+ ".mp4")) doc') ∧
    (∃ doc', add_video_tag_multiple anth_id vid_num doc = Ok doc' ∧
             Etree.appended doc r
               (Etree.video (anth_id +:+ "." +:+ vid_num +:+ ".mp4")) doc').
Proof.
  intros Hid _ _ [r Hfind]%find_has_paper.
  destruct (find_Some _ _ _ _ Hfind) as (vol & pap & Hat & Hfirst).
  exists r, vol, pap. split_and!; try done.
  - eexists. rewrite (add_video_tag_single_eq _ _ _ _ _ Hid), Hfind. simpl.
    split; [done|]. apply SubElement_appended with pap.
    by eapply paper_at_node_at.
  - eexists. rewrite (add_video_tag_multiple_eq _ _ _ _ _ _ Hid), Hfind. simpl.
    split; [done|]. apply SubElement_appended with pap.
    by eapply paper_at_node_at.
Qed.

Lemma size_video_grows doc r tg att pap :
  Etree.node_at doc r = Some pap → Etree.SubElement doc r tg att ≠ doc.
Proof.
  intros Hpap E. apply (f_equal Etree.size) in E.
  rewrite (size_SubElement doc r tg att pap Hpap) in E. lia.
Qed.

(** C5: inserting twice for the same identifier into a document that has
    the paper, the codes holding no double quote so that the path text is
    the query, succeeds both times and leaves two equal [video] elements
    at the end of the children of the same paper: the second insertion
    changes the document again. *)
Theorem insertion_not_idempotent anth_id collection_id volume_id paper_id doc :
  deconstruct_anthology_id anth_id = (collection_id, volume_id, paper_id) →
  Py.has_char Py.double_quote volume_id = false →
  Py.has_char Py.double_quote paper_id = false →
  Etree.has_paper doc volume_id paper_id →
  ∃ r pap doc1 doc2,
    Etree.find doc volume_id paper_id = Some r ∧
    Etree.node_at doc r = Some pap ∧
    add_video_tag_single anth_id doc = Ok doc1 ∧
    add_video_tag_single anth_id doc1 = Ok doc2 ∧
    Etree.children <$> Etree.node_at doc1 r
      = Some (Etree.children pap ++ [Etree.video (anth_id +:+ ".mp4")]) ∧
    Etree.children <$> Etree.node_at doc2 r
      = Some (Etree.children pap ++ [Etree.video (anth_id +:+ ".mp4");
                                     Etree.video (anth_id +:+ ".mp4")]) ∧
    doc2 ≠ doc1 ∧
    Etree.size doc2 = S (S (Etree.size doc)).
Proof.
  intros Hid _ _ [r Hfind]%find_has_paper.
  destruct (find_Some _ _ _ _ Hfind) as (vol & pap & Hat%paper_at_node_at & _).
  set (att := [("href", anth_id +:+ ".mp4")]).
  set (doc1 := Etree.SubElement doc r "video" att).
  assert (Etree.node_at doc1 r = Some (Etree.append_child (Etree.video (anth_id +:+ ".mp4")) pap))
    as Hat1 by (by apply node_at_SubElement).
  exists r, pap, doc1, (Etree.SubElement doc1 r "video" att). split_and!; try done.
  - by rewrite (add_video_tag_single_eq _ _ _ _ _ Hid), Hfind.
  - rewrite (add_video_tag_single_eq _ _ _ _ _ Hid).
    unfold doc1 at 1. by rewrite find_SubElement, Hfind.
  - rewrite Hat1. simpl. by rewrite children_append_child.
  - rewrite (node_at_SubElement doc1 r "video" att _ Hat1). simpl.
    rewrite !children_append_child, <- app_assoc. done.
  - by eapply size_video_grows.
  - rewrite (size_SubElement doc1 r "video" att _ Hat1).
    unfold doc1. by rewrite (size_SubElement doc r "video" att pap Hat).
Qed.

(** ** The loops *)

Lemma bind_inv {A B} (c : run A) (k : A → run B) m m' r :
  bind c k m = (m', r) →
  (∃ m1 a, c m = (m1, Ok a) ∧ k a m1 = (m', r)) ∨
  (∃ e, c m = (m', Raise e) ∧ r = Raise e).
Proof.
  unfold bind. destruct (c m) as [m1 [a|e]]; [left|right]; [eauto|].
  injection H as <- <-. eauto.
Qed.

Lemma single_step_shape collection_id extention tree anth_id :
  single_step collection_id extention tree anth_id
  = tag_and_write collection_id extention (Py.contains collection_id anth_id)
      (add_video_tag_single anth_id tree) tree.
Proof. reflexivity. Qed.

Lemma multiple_step_shape collection_id extention tree entry :
  multiple_step collection_id extention tree entry
  = tag_and_write collection_id extention
      (Py.contains collection_id (nth 0 entry ""))
      (add_video_tag_multiple (nth 0 entry "") (nth 1 entry "") tree) tree.
Proof. reflexivity. Qed.

(** The three ways a loop body ends: the identifier is skipped, the
    insertion fails and nothing is written, or the tree with the tag is
    indented and written once. *)
Lemma tag_and_write_inv collection_id extention matched inserted tree m m' r :
  tag_and_write collection_id extention matched inserted tree m = (m', r) →
  (matched = false ∧ m' = m ∧ r = Ok tree) ∨
  (matched = true ∧ ∃ e, inserted = Raise e ∧ m' = m ∧ r = Raise e) ∨
  (matched = true ∧ ∃ u, inserted = Ok u ∧
     m' = Machine (<[OsPath.join DATA_DIR (collection_id +:+ extention) := Xml (indent u)]> (files m))
                  (written m ++ [(OsPath.join DATA_DIR (collection_id +:+ extention), indent u)]) ∧
     r = Ok (indent u)).
Proof.
  unfold tag_and_write. destruct matched.
  - destruct inserted as [u|e]; unfold bind, lift, update_xml; simpl;
      intros [= <- <-]; right; [right|left]; eauto.
  - intros [= <- <-]. by left.
Qed.


Section Loop.

Context {A : Type}.
Variables (collection_id extention : string).
Variables (matched : A → bool) (insert : A → element → result element).
Variable step : element → A → run element.
Hypothesis step_shape : ∀ tree a,
  step tree a
  = tag_and_write collection_id extention (matched a) (insert a tree) tree.

Let path := OsPath.join DATA_DIR (collection_id +:+ extention).


(** Whatever the outcome, a loop writes to the file of its document
    only. *)
Lemma for_fold_frame ids tree m m' r :
  for_fold step ids tree m = (m', r) →
  (∃ trees, written m' = written m ++ map (pair path) trees) ∧
  (∀ p, p ≠ path → files m' !! p = files m !! p).
Proof.
  revert tree m. induction ids as [|a ids IH]; simpl; intros tree m.
  - intros [= <- <-]. split; [|done]. exists []. simpl. by rewrite app_nil_r.
  - intros [(m1 & t1 & Hstep & Hrest) | (e & Hstep & ->)]%bind_inv;
      rewrite step_shape in Hstep;
      apply tag_and_write_inv in Hstep
        as [(Hm & -> & E) | [(Hm & e' & _ & -> & E) | (Hm & u & Hu & -> & E)]];
      try done.
    + by apply (IH _ _ Hrest).
    + destruct (IH _ _ Hrest) as [[trees Hw] Hfiles]. simpl in *. split.
      * exists (indent u :: trees). simpl. by rewrite Hw, <- app_assoc.
      * intros p Hp. rewrite Hfiles by done. by apply lookup_insert_ne.
    + split; [|done]. exists []. simpl. by rewrite app_nil_r.
Qed.


(** The trees that a loop holds and writes keep a property that the
    insertions and the indentation keep. *)
Lemma for_fold_keeps (Inv : element → Prop) ids tree m m' r :
  Inv tree →
  (∀ t x u, Inv t → insert x t = Ok u → Inv (indent u)) →
  for_fold step ids tree m = (m', r) →
  (∀ t', r = Ok t' → Inv t') ∧
  (∀ p, files m' !! p = files m !! p ∨
        (p = path ∧ ∃ d, files m' !! p = Some (Xml d) ∧ Inv d)).
Proof.
  intros Htree Hkeep. revert tree m Htree.
  induction ids as [|a ids IH]; simpl; intros tree m Htree.
  - intros [= <- <-]. split; [by intros t' [= <-]|auto].
  - intros [(m1 & t1 & Hstep & Hrest) | (e & Hstep & ->)]%bind_inv;
      rewrite step_shape in Hstep;
      apply tag_and_write_inv in Hstep
        as [(Hm & -> & E) | [(Hm & e' & _ & -> & E) | (Hm & u & Hu & -> & E)]];
      try done.
    + injection E as ->. by apply (IH _ _ Htree).
    + injection E as ->.
      assert (Inv (indent u)) as Hu' by (by eapply Hkeep).
      destruct (IH _ _ Hu' Hrest) as [Hok Hfiles]. split; [done|].
      intros p. destruct (Hfiles p) as [Hp | Hp]; [|by right]. simpl in Hp.
      destruct (decide (p = path)) as [->|Hne].
      * right. split; [done|]. exists (indent u). split; [|done].
        rewrite Hp. unfold path. apply lookup_insert_eq.
      * left. rewrite Hp. by apply lookup_insert_ne.
    + split; [done|auto].
Qed.

End Loop.

(** ** One document, and the run *)



Lemma written_path file :
  OsPath.join DATA_DIR ((OsPath.splitext file).1 +:+ (OsPath.splitext file).2)
  = OsPath.join DATA_DIR file.
Proof. by rewrite splitext_app. Qed.

(** How the processing of one document ends. *)
Lemma process_file_inv singles multiples file m m' r :
  process_file singles multiples file m = (m', r) →
  (m' = m ∧ r = Raise (ParseFailure (OsPath.join DATA_DIR file)) ∧
   ∀ d, files m !! OsPath.join DATA_DIR file ≠ Some (Xml d)) ∨
  ∃ d m1 r1,
    files m !! OsPath.join DATA_DIR file = Some (Xml d) ∧
    for_fold (single_step (OsPath.splitext file).1 (OsPath.splitext file).2)
      singles d m = (m1, r1) ∧
    ((∃ e, r1 = Raise e ∧ m' = m1 ∧ r = Raise e) ∨
     ∃ t1 r2, r1 = Ok t1 ∧
       for_fold (multiple_step (OsPath.splitext file).1 (OsPath.splitext file).2)
         multiples t1 m1 = (m', r2) ∧
       ((∃ e, r2 = Raise e ∧ r = Raise e) ∨ (∃ t2, r2 = Ok t2 ∧ r = Ok tt))).
Proof.
  unfold process_file. destruct (OsPath.splitext file) as [cid ext]. simpl.
  intros [(m0 & d & Hparse & Hrest) | (e & Hparse & ->)]%bind_inv.
  - right. unfold et_parse in Hparse.
    destruct (files m !! OsPath.join DATA_DIR file) as [[d'|raw]|] eqn:Hfile;
      try done.
    injection Hparse as <- <-.
    apply bind_inv in Hrest as [(m1 & t1 & Hs & Hrest) | (e & Hs & ->)].
    + exists d', m1, (Ok t1). split_and!; try done. right.
      apply bind_inv in Hrest as [(m2 & t2 & Hm & [= <- <-]) | (e & Hm & ->)].
      * exists t1, (Ok t2). split_and!; eauto.
      * exists t1, (Raise e). split_and!; eauto.
    + exists d', m', (Raise e). split_and!; eauto.
  - left. unfold et_parse in Hparse.
    destruct (files m !! OsPath.join DATA_DIR file) as [[d'|raw]|] eqn:Hfile;
      try done; injection Hparse as <- <-; split_and!; try done.
Qed.

(** Whatever the outcome, the processing of a document writes to the
    file it was read from only. *)
Lemma process_file_frame singles multiples file m m' r :
  process_file singles multiples file m = (m', r) →
  (∃ trees, written m' = written m ++ map (pair (OsPath.join DATA_DIR file)) trees) ∧
  (∀ p, p ≠ OsPath.join DATA_DIR file → files m' !! p = files m !! p).
Proof.
  intros [(-> & _ & _) | (d & m1 & r1 & _ & Hs & Hrest)]%process_file_inv.
  - split; [|done]. exists []. simpl. by rewrite app_nil_r.
  - apply (for_fold_frame _ _ _ _ _ (single_step_shape _ _)) in Hs as [[ts1 Hw1] Hf1].
    rewrite written_path in Hw1, Hf1.
    destruct Hrest as [(e & _ & -> & _) | (t1 & r2 & _ & Hm & _)]; [eauto|].
    apply (for_fold_frame _ _ _ _ _ (multiple_step_shape _ _)) in Hm as [[ts2 Hw2] Hf2].
    rewrite written_path in Hw2, Hf2. split.
    + exists (ts1 ++ ts2). by rewrite Hw2, Hw1, map_app, app_assoc.
    + intros p Hp. by rewrite Hf2, Hf1.
Qed.


Lemma for_each_inv {A} (body : A → run unit) x l m m' r :
  for_each body (x :: l) m = (m', r) →
  (∃ m1, body x m = (m1, Ok tt) ∧ for_each body l m1 = (m', r)) ∨
  (∃ e, body x m = (m', Raise e) ∧ r = Raise e).
Proof.
  simpl. intros [(m1 & [] & Hb & Hrest) | (e & Hb & ->)]%bind_inv; eauto.
Qed.

Lemma for_each_frame singles multiples l m m' r :
  for_each (process_file singles multiples) l m = (m', r) →
  (∃ log, written m' = written m ++ log ∧
          ∀ p t, In (p, t) log → ∃ file, In file l ∧ p = OsPath.join DATA_DIR file) ∧
  (∀ p, (∀ file, In file l → p ≠ OsPath.join DATA_DIR file) →
        files m' !! p = files m !! p).
Proof.
  revert m. induction l as [|file l IH]; intros m.
  - simpl. intros [= <- <-]. split; [|done]. exists []. by rewrite app_nil_r.
  - intros [(m1 & Hb & Hrest) | (e & Hb & ->)]%for_each_inv;
      apply process_file_frame in Hb as [[trees Hw] Hf].
    + destruct (IH _ Hrest) as [(log & Hw' & Hlog) Hf']. split.
      * exists (map (pair (OsPath.join DATA_DIR file)) trees ++ log). split.
        -- by rewrite Hw', Hw, app_assoc.
        -- intros p t [(t' & [= <- <-] & _)%List.in_map_iff | Hin]%List.in_app_or.
           ++ exists file. split; [by left|done].
           ++ destruct (Hlog p t Hin) as (f & Hfl & ->). exists f. split; [by right|done].
      * intros p Hp. rewrite Hf', Hf; [done|apply Hp; by left|].
        intros f Hfl. apply Hp. by right.
    + split.
      * exists (map (pair (OsPath.join DATA_DIR file)) trees). split; [done|].
        intros p t (t' & [= <- <-] & _)%List.in_map_iff.
        exists file. split; [by left|done].
      * intros p Hp. apply Hf, Hp. by left.
Qed.


Lemma main_eq video_dir :
  main video_dir
  = for_each (process_file (get_anth_ids video_dir).1 (get_anth_ids video_dir).2)
      (select_xml_files (get_collection_ids video_dir)).
Proof. unfold main. by destruct (get_anth_ids video_dir). Qed.


(** C10: whatever the outcome of a run, each of its writes goes to
    [DATA_DIR/<collection_id><extention>] for a selected document, which
    is the file the document was read from; a path that is not the path
    of a selected document holds after the run what it held before: so
    every path outside [DATA_DIR], and the path in [DATA_DIR] of every
    file name whose base name is not an observed collection code. *)
Theorem writes_confined video_dir m :
  let selected := select_xml_files (get_collection_ids video_dir) in
  let m' := (main video_dir m).1 in
  (∃ log, written m' = written m ++ log ∧
     ∀ p t, In (p, t) log →
       ∃ file, In file selected ∧
         p = OsPath.join DATA_DIR
               ((OsPath.splitext file).1 +:+ (OsPath.splitext file).2) ∧
         p = OsPath.join DATA_DIR file) ∧
  (∀ p, (∀ file, In file selected → p ≠ OsPath.join DATA_DIR file) →
        files m' !! p = files m !! p) ∧
  (∀ p, (∀ name, p ≠ OsPath.join DATA_DIR name) → files m' !! p = files m !! p) ∧
  (entries_are_names →
   ∀ name, Py.has_char "/" name = false →
     ¬ In (OsPath.splitext name).1 (get_collection_ids video_dir) →
     files m' !! OsPath.join DATA_DIR name = files m !! OsPath.join DATA_DIR name).
Proof.
  intros selected m'.
  destruct (main video_dir m) as [m1 r] eqn:Hmain. subst m'. simpl.
  rewrite main_eq in Hmain.
  apply for_each_frame in Hmain as [(log & Hw & Hlog) Hf]. fold selected in Hlog, Hf.
  split_and!.
  - exists log. split; [done|]. intros p t Hin.
    destruct (Hlog p t Hin) as (file & Hsel & ->). exists file.
    by rewrite written_path.
  - done.
  - intros p Hp. apply Hf. intros file _. apply Hp.
  - intros Hnames name Hname Hbase. apply Hf. intros file Hsel E.
    unfold selected, select_xml_files in Hsel.
    apply List.filter_In in Hsel as [Hdir Hcode].
    apply bool_decide_eq_true, list_elem_of_In in Hcode.
    apply join_name_inj in E; [|done|by eapply Hnames]. by subst file.
Qed.

(** ** A lookup that misses *)






Section Fatal.

(** The indentation changes text and tails only: the path query gives
    on the indented tree what it gives on the tree. *)
Hypothesis indent_keeps_find :
  ∀ t V P, Etree.find (indent t) V P = Etree.find t V P.

Variables (volume_id paper_id : string).







End Fatal.

(** ** The documents of a run *)

Lemma in_collection_ids video_dir collection_id :
  In collection_id (get_collection_ids video_dir) ↔
  ∃ file, In file (glob_mp4 video_dir) ∧
          collection_id = collection_of (Py.first (segments video_dir file)).
Proof.
  unfold get_collection_ids.
  rewrite <- list_elem_of_In, elem_of_elements, elem_of_list_to_set.
  rewrite list_elem_of_In, List.in_map_iff. split.
  - intros (file & <- & Hin). eauto.
  - intros (file & Hin & ->). eauto.
Qed.

(** C6: the documents of a run are the entries of [DATA_DIR] whose name
    without extension is the collection code of an enumerated video
    file, in the order of the directory; the collection codes are kept
    once each; and when the codes are [N13] and [Q13] and the directory
    holds [N13.xml], [Q13.xml] and [R13.xml], the documents are
    [N13.xml] and [Q13.xml]. *)
Theorem selected_documents video_dir :
  (∀ file,
     In file (select_xml_files (get_collection_ids video_dir)) ↔
     In file (listdir DATA_DIR) ∧
     ∃ video, In video (glob_mp4 video_dir) ∧
              (OsPath.splitext file).1
              = collection_of (Py.first (segments video_dir video))) ∧
  NoDup (get_collection_ids video_dir) ∧
  ((∀ c, In c (get_collection_ids video_dir) ↔ c = "N13" ∨ c = "Q13") →
   listdir DATA_DIR = ["N13.xml"; "Q13.xml"; "R13.xml"] →
   select_xml_files (get_collection_ids video_dir) = ["N13.xml"; "Q13.xml"]).
Proof.
  split_and!.
  - intros file. unfold select_xml_files.
    rewrite List.filter_In, bool_decide_eq_true, list_elem_of_In, in_collection_ids.
    done.
  - unfold get_collection_ids. apply (NoDup_elements (C:=gset string)).
  - intros Hcodes Hdir. unfold select_xml_files. rewrite Hdir. simpl.
    rewrite !string_app_nil_l.
    rewrite (bool_decide_eq_true_2 ("N13" ∈ get_collection_ids video_dir)),
      (bool_decide_eq_true_2 ("Q13" ∈ get_collection_ids video_dir)),
      (bool_decide_eq_false_2 ("R13" ∈ get_collection_ids video_dir)); [done|..].
    + rewrite list_elem_of_In, Hcodes. by intros [|].
    + rewrite list_elem_of_In, Hcodes. by right.
    + rewrite list_elem_of_In, Hcodes. by left.
Qed.

(** ** More about the scanner *)

Lemma split_segments_no_sep sep s w :
  In w (Py.split sep s) → Py.has_char sep w = false.
Proof.
  revert w. induction s as [|c s IH]; simpl; intros w.
  - by intros [<-|[]].
  - case_decide as Hc.
    + intros [<-|Hin]; [done|]. by apply IH.
    + pose proof (split_nonempty sep s) as Hne.
      destruct (Py.split sep s) as [|v vs]; [done|].
      intros [<-|Hin].
      * simpl. rewrite bool_decide_eq_false_2 by done. apply IH. by left.
      * apply IH. by right.
Qed.

Lemma first_in (l : list string) : l ≠ [] → In (Py.first l) l.
Proof. destruct l; [done|]. intros _. by left. Qed.

Lemma but_last_in (l : list string) w : In w (Py.but_last l) → In w l.
Proof.
  unfold Py.but_last. induction l as [|x [|y l] IH]; simpl; [done..|].
  intros [<-|Hin]; [by left|]. right. by apply IH.
Qed.

Lemma but_last_app_last (l : list string) :
  l ≠ [] → l = Py.but_last l ++ [List.last l ""].
Proof. intros Hne. by apply app_removelast_last. Qed.

Lemma nth_0_but_last (l : list string) :
  2 ≤ length l → nth 0 (Py.but_last l) "" = Py.first l.
Proof. destruct l as [|x [|y l]]; simpl; [lia..|done]. Qed.

(** X1: no identifier that the scanner returns contains a period: not
    the identifiers of the single-video list, and no component of an
    entry of the multi-video list. *)
Theorem identifiers_have_no_period video_dir :
  (∀ anth_id, In anth_id (get_anth_ids video_dir).1 →
     Py.has_char "." anth_id = false) ∧
  (∀ entry component,
     In entry (get_anth_ids video_dir).2 → In component entry →
     Py.has_char "." component = false).
Proof.
  split.
  - intros anth_id (file & _ & _ & ->)%in_anth_ids_single.
    apply (split_segments_no_sep "." (Py.slice_from (String.length video_dir) file)).
    apply first_in, split_nonempty.
  - intros entry component (file & _ & _ & ->)%in_anth_ids_multiple Hin.
    apply (split_segments_no_sep "." (Py.slice_from (String.length video_dir) file)).
    by apply but_last_in.
Qed.

(** X2: every entry of the multi-video list has at least two
    components, so that [entry[0]] and [entry[1]] exist when the driver
    reads them, and is the list of segments of an enumerated file without
    the last segment. *)
Theorem multiple_entries_indexable video_dir entry :
  In entry (get_anth_ids video_dir).2 →
  2 ≤ length entry ∧
  ∃ file extension,
    In file (glob_mp4 video_dir) ∧
    segments video_dir file = entry ++ [extension] ∧
    nth 0 entry "" = Py.first (segments video_dir file) ∧
    nth 1 entry "" = nth 1 (segments video_dir file) "".
Proof.
  intros (file & Hin & Hlen & ->)%in_anth_ids_multiple. split.
  - rewrite but_last_length. lia.
  - exists file, (List.last (segments video_dir file) ""). split_and!; try done.
    + apply but_last_app_last. intros E. rewrite E in Hlen. simpl in Hlen. lia.
    + apply nth_0_but_last. lia.
    + destruct (segments video_dir file) as [|x [|y [|z l]]]; simpl in *; try lia; done.
Qed.

Lemma classify_count (f : string → list string) (files : list string) :
  (∀ file, 1 ≤ length (f file)) →
  length (List.filter (λ file, Nat.eqb (length (f file)) 2) files)
  + length (List.filter (λ file, Nat.ltb 2 (length (f file))) files)
  + length (List.filter (λ file, Nat.eqb (length (f file)) 1) files)
  = length files.
Proof.
  intros Hpos. induction files as [|x files IH]; simpl; [done|].
  specialize (Hpos x).
  destruct (Nat.eqb_spec (length (f x)) 2) as [E2|E2];
    destruct (Nat.ltb_spec 2 (length (f x))) as [L|L];
    destruct (Nat.eqb_spec (length (f x)) 1) as [E1|E1]; simpl; lia.
Qed.

(** X3: each enumerated file is counted once: the single-video list has
    one identifier for each file of two segments, the multi-video list
    one entry for each file of more than two, sorting neither drops nor
    repeats an entry, and the two lengths and the number of files of one
    segment, which are in neither list, add up to the number of files. *)
Theorem scanner_counts video_dir :
  (get_anth_ids video_dir).2
    ≡ₚ map (λ file, Py.but_last (segments video_dir file))
         (List.filter (λ file, Nat.ltb 2 (length (segments video_dir file)))
                      (glob_mp4 video_dir)) ∧
  length (get_anth_ids video_dir).1
  + length (get_anth_ids video_dir).2
  + length (List.filter (λ file, Nat.eqb (length (segments video_dir file)) 1)
                        (glob_mp4 video_dir))
  = length (glob_mp4 video_dir).
Proof.
  split; [apply sort_permutation|].
  unfold get_anth_ids. simpl.
  rewrite (Permutation_length (sort_permutation _)), !length_map.
  apply classify_count. intros file. apply split_length_pos.
Qed.

(** X4: the collection code of every identifier of the two lists is
    among the collection codes that select the documents. *)
Theorem identifier_codes_are_observed video_dir :
  (∀ anth_id, In anth_id (get_anth_ids video_dir).1 →
     In (collection_of anth_id) (get_collection_ids video_dir)) ∧
  (∀ entry, In entry (get_anth_ids video_dir).2 →
     In (collection_of (nth 0 entry "")) (get_collection_ids video_dir)).
Proof.
  split.
  - intros anth_id (file & Hin & _ & ->)%in_anth_ids_single.
    apply in_collection_ids. eauto.
  - intros entry (file & Hin & Hlen & ->)%in_anth_ids_multiple.
    rewrite nth_0_but_last by lia. apply in_collection_ids. eauto.
Qed.

Lemma filter_map_comm {A B} (p : B → bool) (f : A → B) (l : list A) :
  List.filter p (map f l) = map f (List.filter (λ x, p (f x)) l).
Proof.
  induction l as [|x l IH]; simpl; [done|]. rewrite IH. by destruct (p (f x)).
Qed.

(** X5: when [video_dir] is a directory name without wildcard
    characters followed by one separator, the enumerated paths are
    [video_dir] and a file name, the segments of a path are those of the
    file name, and the single-video identifiers are the first segments of
    the [.mp4] names of two segments, in the order of the directory. *)
Theorem scanner_reads_file_names directory video_dir :
  entries_are_names →
  has_magic directory = false →
  directory ≠ "" →
  Py.endswith "/" directory = false →
  video_dir = directory +:+ "/" →
  glob_mp4 video_dir
    = map (String.append video_dir) (List.filter matches_mp4 (listdir directory)) ∧
  (∀ name, segments video_dir (video_dir +:+ name) = Py.split "." name) ∧
  (get_anth_ids video_dir).1
    = map (λ name, Py.first (Py.split "." name))
        (List.filter (λ name, Nat.eqb (length (Py.split "." name)) 2)
           (List.filter matches_mp4 (listdir directory))).
Proof.
  intros Hnames Hmagic Hne Hend ->.
  destruct (string_last_cases "/" directory) as [-> | [[t ->] | (t & c & Hc & ->)]];
    [done| |].
  { exfalso. apply not_true_iff_false in Hend. apply Hend.
    apply endswith_spec. by exists t. }
  assert (∀ name, segments ((t +:+ String c "") +:+ "/")
                    (((t +:+ String c "") +:+ "/") +:+ name)
                  = Py.split "." name) as Hseg.
  { intros name. unfold segments. by rewrite slice_from_app. }
  assert (glob_mp4 ((t +:+ String c "") +:+ "/")
          = map (String.append ((t +:+ String c "") +:+ "/"))
              (List.filter matches_mp4 (listdir (t +:+ String c "")))) as Hglob.
  { unfold glob_mp4. rewrite (dirname_one_trailing_sep t c Hc), Hmagic. simpl.
    rewrite app_nil_r. apply map_ext_in.
    intros name [Hin _]%List.filter_In. rewrite join_name by (by eapply Hnames).
    rewrite (endswith_last_char "/" c t) by done.
    rewrite bool_decide_eq_false_2 by apply app_last_not_empty. simpl.
    by rewrite <- (string_app_assoc _ "/" name). }
  split_and!; try done.
  unfold get_anth_ids. simpl. rewrite Hglob, filter_map_comm, map_map.
  erewrite map_ext; [erewrite List.filter_ext; [done|]|].
  - intros name. simpl. by rewrite Hseg.
  - intros name. simpl. by rewrite Hseg.
Qed.

(** ** More about the run *)

(** X6: when [DATA_DIR] is listed with entries and none of them has the
    name of an observed collection code, in particular when the pattern
    enumerates no video, the run completes and leaves the machine as it
    was: no document is parsed, nothing is written. *)
Theorem no_document_no_effect video_dir m :
  listdir DATA_DIR ≠ [] →
  glob_mp4 video_dir = [] ∨
  (∀ file, In file (listdir DATA_DIR) →
     ¬ In (OsPath.splitext file).1 (get_collection_ids video_dir)) →
  main video_dir m = (m, Ok tt).
Proof.
  intros _ Hnone.
  assert (∀ file, In file (listdir DATA_DIR) →
            ¬ In (OsPath.splitext file).1 (get_collection_ids video_dir)) as Hno.
  { destruct Hnone as [Hglob | Hno]; [|done].
    intros file _ (video & Hin & _)%in_collection_ids. by rewrite Hglob in Hin. }
  rewrite main_eq.
  assert (select_xml_files (get_collection_ids video_dir) = []) as ->; [|done].
  unfold select_xml_files. clear Hnone. revert Hno.
  generalize (listdir DATA_DIR). intros entries.
  induction entries as [|file entries IH]; intros Hno; simpl; [done|].
  rewrite bool_decide_eq_false_2.
  - apply IH. intros f Hf. apply Hno. by right.
  - rewrite list_elem_of_In. apply Hno. by left.
Qed.

Lemma for_each_not_xml singles multiples file l m :
  In file l →
  (∀ d, files m !! OsPath.join DATA_DIR file ≠ Some (Xml d)) →
  ∃ m' e, for_each (process_file singles multiples) l m = (m', Raise e).
Proof.
  intros Hl. revert m. induction l as [|x l IH]; intros m Hm; [done|].
  simpl. unfold bind.
  destruct (process_file singles multiples x m) as [m1 [[]|e]] eqn:Hx; [|eauto].
  pose proof Hx as [(_ & ? & _) | (d & _ & _ & Hd & _)]%process_file_inv; [done|].
  destruct Hl as [-> | Hl]; [by destruct (Hm d)|].
  apply IH; [done|].
  apply process_file_frame in Hx as [_ Hframe].
  intros d'. rewrite Hframe; [apply Hm|]. intros E. rewrite E in Hm. by destruct (Hm d).
Qed.

(** X7: a selected entry of [DATA_DIR] whose path does not hold an XML
    document makes the run fail: the parse is not guarded. *)
Theorem unparsable_document_is_fatal video_dir file m :
  In file (select_xml_files (get_collection_ids video_dir)) →
  (∀ d, files m !! OsPath.join DATA_DIR file ≠ Some (Xml d)) →
  ∃ m' e, main video_dir m = (m', Raise e).
Proof. intros Hsel Hfile. rewrite main_eq. by eapply for_each_not_xml. Qed.

Lemma process_file_paths singles multiples file m m' r :
  process_file singles multiples file m = (m', r) →
  ∀ p, is_Some (files m' !! p) ↔ is_Some (files m !! p).
Proof.
  intros [(-> & _ & _) | (d & m1 & r1 & Hd & Hs & Hrest)]%process_file_inv; [done|].
  assert (∀ ma mb,
    (∀ p, files mb !! p = files ma !! p ∨
          (p = OsPath.join DATA_DIR
                 ((OsPath.splitext file).1 +:+ (OsPath.splitext file).2) ∧
           ∃ d, files mb !! p = Some (Xml d) ∧ True)) →
    is_Some (files ma !! OsPath.join DATA_DIR file) →
    ∀ p, is_Some (files mb !! p) ↔ is_Some (files ma !! p)) as Hstep.
  { intros ma mb Hfiles Hread p.
    destruct (Hfiles p) as [-> | (-> & d' & -> & _)]; [done|].
    rewrite written_path. split; [done|eauto]. }
  destruct (for_fold_keeps _ _ _ _ _ (single_step_shape _ _) (λ _, True)
              _ _ _ _ _ I (λ _ _ _ _ _, I) Hs) as [_ Hf1].
  assert (∀ p, is_Some (files m1 !! p) ↔ is_Some (files m !! p)) as H1
    by (apply Hstep; [done|by rewrite Hd]).
  destruct Hrest as [(e & _ & -> & _) | (t1 & r2 & _ & Hm & _)]; [done|].
  destruct (for_fold_keeps _ _ _ _ _ (multiple_step_shape _ _) (λ _, True)
              _ _ _ _ _ I (λ _ _ _ _ _, I) Hm) as [_ Hf2].
  intros p. rewrite <- H1. apply Hstep; [done|]. apply H1. by rewrite Hd.
Qed.

(** X8: whatever its outcome, a run creates no file and deletes none:
    the machine has the same paths after it as before. *)
Theorem run_keeps_the_paths video_dir m :
  dom (files (main video_dir m).1) = dom (files m).
Proof.
  rewrite main_eq.
  generalize (select_xml_files (get_collection_ids video_dir)). intros l.
  apply set_eq. intros p. rewrite !elem_of_dom. revert m.
  induction l as [|file l IH]; intros m; [done|]. simpl. unfold bind.
  destruct (process_file _ _ file m) as [m1 [[]|e]] eqn:Hfile; simpl.
  - rewrite IH. by eapply process_file_paths.
  - by eapply process_file_paths.
Qed.

Lemma for_fold_last_write {A} collection_id extention (matched : A → bool)
    (insert : A → element → result element) (step : element → A → run element)
    ids tree m m' tree' :
  (∀ tree a, step tree a
     = tag_and_write collection_id extention (matched a) (insert a tree) tree) →
  for_fold step ids tree m = (m', Ok tree') →
  (List.filter matched ids = [] ∧ m' = m ∧ tree' = tree) ∨
  (List.filter matched ids ≠ [] ∧
   files m' !! OsPath.join DATA_DIR (collection_id +:+ extention)
     = Some (Xml tree') ∧
   ∃ log, written m'
          = written m ++ log
            ++ [(OsPath.join DATA_DIR (collection_id +:+ extention), tree')]).
Proof.
  intros Hshape. revert tree m. induction ids as [|a ids IH]; simpl; intros tree m.
  - intros [= <- <-]. by left.
  - intros [(m1 & t1 & Hstep & Hrest) | (e & _ & ?)]%bind_inv; [|done].
    rewrite Hshape in Hstep.
    apply tag_and_write_inv in Hstep
      as [(Hm & -> & [= ->]) | [(Hm & e & _ & _ & ?) | (Hm & u & Hu & -> & [= ->])]];
      [|done|]; rewrite Hm.
    + by apply IH.
    + right. split; [done|].
      destruct (IH _ _ Hrest) as [(_ & -> & ->) | (_ & Hfile & log & Hlog)]; simpl.
      * split; [apply lookup_insert_eq|]. exists []. done.
      * split; [done|]. simpl in Hlog. eexists (_ :: log).
        rewrite Hlog, <- !app_assoc. done.
Qed.

(** X9: a document that is processed to the end is on the machine as
    the script last held it: when its code occurs in no identifier of the
    two lists, it is not rewritten and the machine is as before; when it
    occurs in one, the last write of the run so far is a write of this
    document and its file holds the tree of that write. *)
Theorem document_on_disk_is_last_tree singles multiples file m m' :
  process_file singles multiples file m = (m', Ok tt) →
  (matching_single (OsPath.splitext file).1 singles = [] →
   matching_multiple (OsPath.splitext file).1 multiples = [] →
   m' = m) ∧
  (matching_single (OsPath.splitext file).1 singles ≠ [] ∨
   matching_multiple (OsPath.splitext file).1 multiples ≠ [] →
   ∃ log tree,
     written m' = written m ++ log ++ [(OsPath.join DATA_DIR file, tree)] ∧
     files m' !! OsPath.join DATA_DIR file = Some (Xml tree)).
Proof.
  intros [(_ & ? & _) | (d & m1 & r1 & _ & Hs & Hrest)]%process_file_inv; [done|].
  destruct Hrest as [(e & _ & _ & ?) | (t1 & r2 & -> & Hm & Hrest)]; [done|].
  destruct Hrest as [(e & _ & ?) | (t2 & -> & _)]; [done|].
  apply (for_fold_last_write _ _ _ _ _ _ _ _ _ _ (single_step_shape _ _)) in Hs.
  apply (for_fold_last_write _ _ _ _ _ _ _ _ _ _ (multiple_step_shape _ _)) in Hm.
  rewrite written_path in Hs, Hm.
  fold (matching_single (OsPath.splitext file).1 singles) in Hs.
  fold (matching_multiple (OsPath.splitext file).1 multiples) in Hm.
  destruct Hm as [(Hnone2 & -> & ->) | (Hsome2 & Hfile2 & log2 & Hlog2)].
  - destruct Hs as [(Hnone1 & -> & _) | (Hsome1 & Hfile1 & log1 & Hlog1)].
    + split; [done|]. by intros [?|?].
    + split; [done|]. intros _. by exists log1, t1.
  - split; [done|]. intros _.
    destruct Hs as [(_ & -> & _) | (_ & _ & log1 & Hlog1)].
    + by exists log2, t2.
    + exists (log1 ++ (OsPath.join DATA_DIR file, t1) :: log2), t2.
      split; [|done]. rewrite Hlog2, Hlog1, <- !app_assoc. done.
Qed.

Lemma for_each_app_raise {A} (body : A → run unit) l1 x l2 m m1 m2 e :
  for_each body l1 m = (m1, Ok tt) →
  body x m1 = (m2, Raise e) →
  for_each body (l1 ++ x :: l2) m = (m2, Raise e).
Proof.
  revert m. induction l1 as [|y l1 IH]; simpl; intros m.
  - intros [= <-] Hx. unfold bind. by rewrite Hx.
  - intros [(m0 & [] & Hy & Hrest) | (e' & _ & ?)]%bind_inv Hx; [|done].
    unfold bind. rewrite Hy. by apply IH.
Qed.

(** X10: the run stops at the first document that fails: when the
    documents before it complete and it raises, the run ends with that
    exception on the machine as that document left it, and the documents
    after it are not processed. *)
Theorem run_stops_at_first_failure video_dir before file after m m1 m2 e :
  select_xml_files (get_collection_ids video_dir) = before ++ file :: after →
  for_each (process_file (get_anth_ids video_dir).1 (get_anth_ids video_dir).2)
           before m = (m1, Ok tt) →
  process_file (get_anth_ids video_dir).1 (get_anth_ids video_dir).2 file m1
    = (m2, Raise e) →
  main video_dir m = (m2, Raise e) ∧
  (∀ p, p ≠ OsPath.join DATA_DIR file →
        (∀ f, In f before → p ≠ OsPath.join DATA_DIR f) →
        files m2 !! p = files m !! p).
Proof.
  intros Hsel Hbefore Hfile. split.
  - rewrite main_eq, Hsel. by eapply for_each_app_raise.
  - intros p Hp Hbefore_p.
    apply process_file_frame in Hfile as [_ ->]; [|done].
    by apply for_each_frame in Hbefore as [_ ->].
Qed.

End Ingest.

(** ** The program on the sample machine *)

Lemma sample_entries_are_names : entries_are_names Sample.listdir.
Proof.
  intros d name. unfold Sample.listdir.
  repeat case_decide; simpl; intros Hin;
    repeat (destruct Hin as [<-|Hin]; [reflexivity|]); destruct Hin.
Qed.





Lemma single_video_file_witness :
  In "videos/N13-1001.mp4" (glob_mp4 Sample.listdir Sample.glob_dirs "videos/") ∧
  Py.slice_from (String.length "videos/") "videos/N13-1001.mp4"
    = "N13-1001" +:+ ".mp4" ∧
  Py.has_char "." "N13-1001" = false ∧
  segments "videos/" "videos/N13-1001.mp4" = ["N13-1001"; "mp4"] ∧
  In "N13-1001" (get_anth_ids Sample.listdir Sample.glob_dirs "videos/").1.
Proof.
  assert (In "videos/N13-1001.mp4"
            (glob_mp4 Sample.listdir Sample.glob_dirs "videos/")) as H1
    by (vm_compute; auto).
  assert (Py.slice_from (String.length "videos/") "videos/N13-1001.mp4"
          = "N13-1001" +:+ ".mp4") as H2 by reflexivity.
  assert (Py.has_char "." "N13-1001" = false) as H3 by reflexivity.
  destruct (single_video_file Sample.listdir Sample.glob_dirs
              "videos/" "videos/N13-1001.mp4" "N13-1001" H1 H2 H3) as (Hseg & Hin & _).
  by split_and!.
Defined.

Lemma multi_video_file_witness :
  In "videos/N13-4001.2.mp4" (glob_mp4 Sample.listdir Sample.glob_dirs "videos/") ∧
  Py.slice_from (String.length "videos/") "videos/N13-4001.2.mp4"
    = "N13-4001" +:+ "." +:+ "2" +:+ ".mp4" ∧
  Py.has_char "." "N13-4001" = false ∧
  Py.isdigit "2" = true ∧
  In ["N13-4001"; "2"] (get_anth_ids Sample.listdir Sample.glob_dirs "videos/").2 ∧
  StronglySorted Py.list_le (get_anth_ids Sample.listdir Sample.glob_dirs "videos/").2.
Proof.
  assert (In "videos/N13-4001.2.mp4"
            (glob_mp4 Sample.listdir Sample.glob_dirs "videos/")) as H1
    by (vm_compute; auto).
  assert (Py.slice_from (String.length "videos/") "videos/N13-4001.2.mp4"
          = "N13-4001" +:+ "." +:+ "2" +:+ ".mp4") as H2 by reflexivity.
  assert (Py.has_char "." "N13-4001" = false) as H3 by reflexivity.
  assert (Py.isdigit "2" = true) as H4 by reflexivity.
  destruct (multi_video_file Sample.listdir Sample.glob_dirs
              "videos/" "videos/N13-4001.2.mp4" "N13-4001" "2" H1 H2 H3 H4)
    as (Hin & Hsorted & _).
  by split_and!.
Defined.

Lemma scanned_file_classified_witness :
  entries_are_names Sample.listdir ∧
  has_magic "videos/" = false ∧
  Py.endswith "//" "videos/" = false ∧
  In "videos/Q13-1002.mp4" (glob_mp4 Sample.listdir Sample.glob_dirs "videos/") ∧
  2 ≤ length (segments "videos/" "videos/Q13-1002.mp4").
Proof.
  assert (In "videos/Q13-1002.mp4"
            (glob_mp4 Sample.listdir Sample.glob_dirs "videos/")) as H
    by (vm_compute; auto).
  destruct (scanned_file_classified Sample.listdir Sample.glob_dirs
              "videos/" "videos/Q13-1002.mp4"
              sample_entries_are_names eq_refl eq_refl H) as (Hlen & _).
  split_and!; [apply sample_entries_are_names|done..].
Defined.

(** C8 as it is stated fails: with three separators at the end of
    [video_dir] the pattern enumerates [v/a.mp4], four characters are
    removed from it, [mp4] is left, one segment, and the file is in
    neither list. *)
Lemma scanned_file_in_neither_list :
  glob_mp4 Sample.listdir Sample.glob_dirs "v///" = ["v/a.mp4"] ∧
  segments "v///" "v/a.mp4" = ["mp4"] ∧
  get_anth_ids Sample.listdir Sample.glob_dirs "v///" = ([], []) ∧
  ¬ (∀ file, In file (glob_mp4 Sample.listdir Sample.glob_dirs "v///") →
       2 ≤ length (segments "v///" file) ∧
       (In (Py.first (segments "v///" file))
           (get_anth_ids Sample.listdir Sample.glob_dirs "v///").1 ∨
        In (Py.but_last (segments "v///" file))
           (get_anth_ids Sample.listdir Sample.glob_dirs "v///").2)).
Proof.
  split_and!; [by vm_compute..|].
  intros H. destruct (H "v/a.mp4") as [Hlen _]; [vm_compute; auto|].
  vm_compute in Hlen. lia.
Qed.

Lemma identifier_keeps_separator_witness :
  entries_are_names Sample.listdir ∧
  has_magic "videos" = false ∧
  Py.endswith "/" "videos" = false ∧
  (∀ anth_id, In anth_id (get_anth_ids Sample.listdir Sample.glob_dirs "videos").1 →
     Py.startswith "/" anth_id = true).
Proof.
  destruct (identifier_keeps_separator Sample.listdir Sample.glob_dirs "videos"
              sample_entries_are_names eq_refl eq_refl) as (_ & Hsingle & _).
  split_and!; [apply sample_entries_are_names|done..].
Defined.

(** C9 as it is stated fails: [vid*] does not end with a separator, the
    pattern enumerates the files of [videos], and the identifiers that
    are left after four characters are removed begin with [os/]. *)
Lemma wildcard_identifier_lacks_separator :
  Py.endswith "/" "vid*" = false ∧
  In "videos/N13-1001.mp4" (glob_mp4 Sample.listdir Sample.glob_dirs "vid*") ∧
  Py.first (segments "vid*" "videos/N13-1001.mp4") = "os/N13-1001" ∧
  ¬ (∀ file, In file (glob_mp4 Sample.listdir Sample.glob_dirs "vid*") →
       Py.startswith "/" (Py.first (segments "vid*" file)) = true).
Proof.
  split_and!; [by vm_compute|vm_compute; auto|by vm_compute|].
  intros H. specialize (H "videos/N13-1001.mp4"). vm_compute in H.
  assert (false = true) as E by (apply H; auto). discriminate E.
Qed.

Lemma sample_has_paper : Etree.has_paper Sample.N13 "1" "1".
Proof. exists (0, 0). eexists _, _. by repeat split. Qed.

Lemma video_tag_appended_witness :
  Sample.deconstruct "N13-1001" = ("N13", "1", "1") ∧
  Py.has_char Py.double_quote "1" = false ∧
  Etree.has_paper Sample.N13 "1" "1" ∧
  ∃ r doc',
    Etree.find Sample.N13 "1" "1" = Some r ∧
    add_video_tag_single Sample.deconstruct "N13-1001" Sample.N13 = Ok doc' ∧
    Etree.appended Sample.N13 r (Etree.video ("N13-1001" +:+ ".mp4")) doc'.
Proof.
  destruct (video_tag_appended Sample.deconstruct "N13-1001" "1" "N13" "1" "1"
              Sample.N13 eq_refl eq_refl eq_refl sample_has_paper)
    as (r & vol & pap & Hfind & _ & _ & (doc' & Hadd & Happ) & _).
  split_and!; [done|done|apply sample_has_paper|]. by exists r, doc'.
Defined.

Lemma insertion_not_idempotent_witness :
  Sample.deconstruct "N13-1001" = ("N13", "1", "1") ∧
  Py.has_char Py.double_quote "1" = false ∧
  Etree.has_paper Sample.N13 "1" "1" ∧
  ∃ doc1 doc2,
    add_video_tag_single Sample.deconstruct "N13-1001" Sample.N13 = Ok doc1 ∧
    add_video_tag_single Sample.deconstruct "N13-1001" doc1 = Ok doc2 ∧
    doc2 ≠ doc1.
Proof.
  destruct (insertion_not_idempotent Sample.deconstruct "N13-1001" "N13" "1" "1"
              Sample.N13 eq_refl eq_refl eq_refl sample_has_paper)
    as (r & pap & doc1 & doc2 & _ & _ & H1 & H2 & _ & _ & Hne & _).
  split_and!; [done|done|apply sample_has_paper|]. by exists doc1, doc2.
Defined.


Lemma writes_confined_witness :
  entries_are_names Sample.listdir ∧
  files (main Sample.deconstruct Sample.indent Sample.DATA_DIR Sample.listdir
              Sample.glob_dirs "videos/" Sample.boot).1
    !! OsPath.join Sample.DATA_DIR "R13.xml"
  = files Sample.boot !! OsPath.join Sample.DATA_DIR "R13.xml".
Proof.
  split; [apply sample_entries_are_names|].
  destruct (writes_confined Sample.deconstruct Sample.indent Sample.DATA_DIR
              Sample.listdir Sample.glob_dirs "videos/" Sample.boot)
    as (_ & _ & _ & Hname).
  apply Hname; [apply sample_entries_are_names|done|].
  vm_compute. intros [E|[E|[]]]; discriminate E.
Defined.


Lemma selected_documents_witness :
  (∀ c, In c (get_collection_ids Sample.deconstruct Sample.listdir
                Sample.glob_dirs "videos/") ↔ c = "N13" ∨ c = "Q13") ∧
  Sample.listdir Sample.DATA_DIR = ["N13.xml"; "Q13.xml"; "R13.xml"] ∧
  select_xml_files Sample.DATA_DIR Sample.listdir
    (get_collection_ids Sample.deconstruct Sample.listdir Sample.glob_dirs "videos/")
  = ["N13.xml"; "Q13.xml"].
Proof.
  assert (∀ c, In c (get_collection_ids Sample.deconstruct Sample.listdir
                Sample.glob_dirs "videos/") ↔ c = "N13" ∨ c = "Q13") as Hcodes.
  { intros c.
    let ids := eval vm_compute in
      (get_collection_ids Sample.deconstruct Sample.listdir
         Sample.glob_dirs "videos/") in
    change (get_collection_ids Sample.deconstruct Sample.listdir
              Sample.glob_dirs "videos/") with ids.
    simpl. split; [intros [<-|[<-|[]]]; auto|intros [->| ->]; auto]. }
  destruct (selected_documents Sample.deconstruct Sample.DATA_DIR Sample.listdir
              Sample.glob_dirs "videos/") as (_ & _ & Hex).
  split_and!; [done|done|]. by apply Hex.
Defined.

Lemma multiple_entries_indexable_witness :
  In ["N13-4001"; "1"] (get_anth_ids Sample.listdir Sample.glob_dirs "videos/").2 ∧
  2 ≤ length ["N13-4001"; "1"].
Proof.
  assert (In ["N13-4001"; "1"]
            (get_anth_ids Sample.listdir Sample.glob_dirs "videos/").2) as Hin
    by (vm_compute; auto).
  destruct (multiple_entries_indexable Sample.listdir Sample.glob_dirs "videos/"
              ["N13-4001"; "1"] Hin) as [Hlen _].
  split; [exact Hin|exact Hlen].
Defined.

Lemma scanner_reads_file_names_witness :
  entries_are_names Sample.listdir ∧
  has_magic "videos" = false ∧
  "videos" ≠ "" ∧
  Py.endswith "/" "videos" = false ∧
  (get_anth_ids Sample.listdir Sample.glob_dirs "videos/").1
  = map (λ name, Py.first (Py.split "." name))
      (List.filter (λ name, Nat.eqb (length (Py.split "." name)) 2)
         (List.filter matches_mp4 (Sample.listdir "videos"))).
Proof.
  assert ("videos" ≠ "") as Hne by discriminate.
  destruct (scanner_reads_file_names Sample.listdir Sample.glob_dirs
              "videos" "videos/" sample_entries_are_names eq_refl Hne eq_refl eq_refl)
    as (_ & _ & Hsingle).
  split; [apply sample_entries_are_names|].
  split; [reflexivity|]. split; [exact Hne|]. split; [reflexivity|]. exact Hsingle.
Defined.

Lemma no_document_no_effect_witness :
  Sample.listdir Sample.DATA_DIR ≠ [] ∧
  glob_mp4 Sample.listdir Sample.glob_dirs "attic/" = [] ∧
  main Sample.deconstruct Sample.indent Sample.DATA_DIR Sample.listdir
       Sample.glob_dirs "attic/" Sample.boot = (Sample.boot, Ok tt).
Proof.
  assert (glob_mp4 Sample.listdir Sample.glob_dirs "attic/" = []) as Hglob
    by reflexivity.
  assert (Sample.listdir Sample.DATA_DIR ≠ []) as Hdir by discriminate.
  split; [exact Hdir|]. split; [exact Hglob|].
  apply no_document_no_effect; [exact Hdir|]. left. exact Hglob.
Defined.

Lemma unparsable_document_is_fatal_witness :
  In "Q13.xml"
     (select_xml_files Sample.DATA_DIR Sample.listdir
        (get_collection_ids Sample.deconstruct Sample.listdir Sample.glob_dirs
           "videos/")) ∧
  files Sample.broken !! OsPath.join Sample.DATA_DIR "Q13.xml"
    = Some (Other "<collection id=") ∧
  ∃ m' e,
    main Sample.deconstruct Sample.indent Sample.DATA_DIR Sample.listdir
         Sample.glob_dirs "videos/" Sample.broken = (m', Raise e).
Proof.
  assert (In "Q13.xml"
     (select_xml_files Sample.DATA_DIR Sample.listdir
        (get_collection_ids Sample.deconstruct Sample.listdir Sample.glob_dirs
           "videos/"))) as Hsel by (vm_compute; auto).
  assert (files Sample.broken !! OsPath.join Sample.DATA_DIR "Q13.xml"
          = Some (Other "<collection id=")) as Hfile by (vm_compute; reflexivity).
  split; [exact Hsel|]. split; [exact Hfile|].
  apply (unparsable_document_is_fatal Sample.deconstruct Sample.indent
           Sample.DATA_DIR Sample.listdir Sample.glob_dirs "videos/" "Q13.xml"
           Sample.broken Hsel).
  intros d. rewrite Hfile. discriminate.
Defined.

Lemma document_on_disk_is_last_tree_witness :
  (process_file Sample.deconstruct Sample.indent Sample.DATA_DIR
     ["Q13-1002"] [] "Q13.xml" Sample.boot).2 = Ok tt ∧
  matching_single (OsPath.splitext "Q13.xml").1 ["Q13-1002"] ≠ [] ∧
  ∃ log tree,
    written (process_file Sample.deconstruct Sample.indent Sample.DATA_DIR
               ["Q13-1002"] [] "Q13.xml" Sample.boot).1
    = written Sample.boot ++ log ++ [(OsPath.join Sample.DATA_DIR "Q13.xml", tree)] ∧
    files (process_file Sample.deconstruct Sample.indent Sample.DATA_DIR
             ["Q13-1002"] [] "Q13.xml" Sample.boot).1
      !! OsPath.join Sample.DATA_DIR "Q13.xml" = Some (Xml tree).
Proof.
  assert (process_file Sample.deconstruct Sample.indent Sample.DATA_DIR
            ["Q13-1002"] [] "Q13.xml" Sample.boot
          = ((process_file Sample.deconstruct Sample.indent Sample.DATA_DIR
                ["Q13-1002"] [] "Q13.xml" Sample.boot).1, Ok tt)) as Hrun
    by (vm_compute; reflexivity).
  assert (matching_single (OsPath.splitext "Q13.xml").1 ["Q13-1002"] ≠ [])
    as Hsome by discriminate.
  split; [vm_compute; reflexivity|]. split; [exact Hsome|].
  destruct (document_on_disk_is_last_tree Sample.deconstruct Sample.indent
              Sample.DATA_DIR ["Q13-1002"] [] "Q13.xml" Sample.boot _ Hrun)
    as [_ Hlast].
  apply Hlast. left. exact Hsome.
Defined.

Lemma run_stops_at_first_failure_witness :
  select_xml_files Sample.DATA_DIR Sample.listdir
    (get_collection_ids Sample.deconstruct Sample.listdir Sample.glob_dirs "videos/")
  = ["N13.xml"] ++ "Q13.xml" :: [] ∧
  (main Sample.deconstruct Sample.indent Sample.DATA_DIR Sample.listdir
        Sample.glob_dirs "videos/" Sample.stale).2 = Raise LookupFailure.
Proof.
  assert (select_xml_files Sample.DATA_DIR Sample.listdir
            (get_collection_ids Sample.deconstruct Sample.listdir Sample.glob_dirs
               "videos/")
          = ["N13.xml"] ++ "Q13.xml" :: []) as Hsel by (vm_compute; reflexivity).
  split; [exact Hsel|].
  set (singles := (get_anth_ids Sample.listdir Sample.glob_dirs "videos/").1).
  set (multiples := (get_anth_ids Sample.listdir Sample.glob_dirs "videos/").2).
  set (body := process_file Sample.deconstruct Sample.indent Sample.DATA_DIR
                 singles multiples).
  assert (for_each body ["N13.xml"] Sample.stale
          = ((for_each body ["N13.xml"] Sample.stale).1, Ok tt)) as Hbefore
    by (vm_compute; reflexivity).
  assert (body "Q13.xml" (for_each body ["N13.xml"] Sample.stale).1
          = ((body "Q13.xml" (for_each body ["N13.xml"] Sample.stale).1).1,
             Raise LookupFailure)) as Hfile
    by (vm_compute; reflexivity).
  destruct (run_stops_at_first_failure Sample.deconstruct Sample.indent
              Sample.DATA_DIR Sample.listdir Sample.glob_dirs "videos/"
              ["N13.xml"] "Q13.xml" [] Sample.stale _ _ _ Hsel Hbefore Hfile)
    as [Hmain _].
  rewrite Hmain. reflexivity.
Defined.
